(** * mailpopbox: the server side of an SMTP session

  A shallow embedding of [smtp/conn.go] (the per-connection session: the
  command loop, the command handlers, the send-as rewriter and the trace
  header) and of the earlier revision of the same file that the repository
  also carries.  Go strings and byte slices are [string]s (sequences of
  bytes), Go [int]s are [Z], nil-able pointers are [option]s.

  What the session obtains from outside the two files is kept abstract:
  the [Server] collaborator is a type class, and the functions of the Go
  standard library whose result depends on data the session does not
  compute itself (address parsing, base64, the clock ...) are the fields
  of the class [Runtime].  Concrete instances are given at the end of the
  definitions and are used to run whole sessions. *)

From Stdlib Require Import String Ascii List ZArith Bool Lia.
From Stdlib Require Import DecimalString HexadecimalString.
Import ListNotations.

Local Open Scope string_scope.
Local Open Scope Z_scope.

(** ** The parts of Go's [strings], [bytes] and [fmt] packages the session uses

  Lines are treated as sequences of bytes; case mapping and white space
  are those of ASCII. *)

Module strings.

Definition upperByte (a : ascii) : ascii :=
  let n := nat_of_ascii a in
  if andb (Nat.leb 97 n) (Nat.leb n 122) then ascii_of_nat (n - 32) else a.

Definition lowerByte (a : ascii) : ascii :=
  let n := nat_of_ascii a in
  if andb (Nat.leb 65 n) (Nat.leb n 90) then ascii_of_nat (n + 32) else a.

Fixpoint ToUpper (s : string) : string :=
  match s with
  | EmptyString => EmptyString
  | String a r => String (upperByte a) (ToUpper r)
  end.

Fixpoint ToLower (s : string) : string :=
  match s with
  | EmptyString => EmptyString
  | String a r => String (lowerByte a) (ToLower r)
  end.

Fixpoint HasPrefix (s p : string) : bool :=
  match p, s with
  | EmptyString, _ => true
  | String b p', String a s' => andb (Ascii.eqb a b) (HasPrefix s' p')
  | String _ _, EmptyString => false
  end.

(** [len(s)] *)
Definition len (s : string) : Z := Z.of_nat (String.length s).

Fixpoint drop (n : nat) (s : string) : string :=
  match n, s with
  | O, _ => s
  | S n', String _ r => drop n' r
  | S _, EmptyString => EmptyString
  end.

Fixpoint take (n : nat) (s : string) : string :=
  match n, s with
  | O, _ => EmptyString
  | S n', String a r => String a (take n' r)
  | S _, EmptyString => EmptyString
  end.

(** [s[lo:hi]]; the callers only slice within bounds. *)
Definition slice (s : string) (lo hi : Z) : string :=
  take (Z.to_nat (hi - lo)) (drop (Z.to_nat lo) s).

(** [s[lo:]] and [s[:hi]] *)
Definition sliceFrom (s : string) (lo : Z) : string := drop (Z.to_nat lo) s.
Definition sliceTo (s : string) (hi : Z) : string := take (Z.to_nat hi) s.

(** [strings.Index]: the offset of the first occurrence, or -1. *)
Fixpoint Index (s sub : string) : Z :=
  if HasPrefix s sub then 0
  else match s with
       | EmptyString => -1
       | String _ r => let i := Index r sub in if i =? -1 then -1 else i + 1
       end.

(** [bytes.LastIndexByte]: the offset of the last occurrence, or -1. *)
Fixpoint LastIndexByte (s : string) (b : ascii) : Z :=
  match s with
  | EmptyString => -1
  | String a r =>
      let i := LastIndexByte r b in
      if i =? -1 then (if Ascii.eqb a b then 0 else -1) else i + 1
  end.

(** [strings.LastIndex] for a one-byte separator. *)
Definition LastIndex (s : string) (b : ascii) : Z := LastIndexByte s b.

(** [strings.Split] for a one-byte separator: always at least one part. *)
Fixpoint Split (s : string) (sep : ascii) : list string :=
  match s with
  | EmptyString => [EmptyString]
  | String a r =>
      if Ascii.eqb a sep then EmptyString :: Split r sep
      else match Split r sep with
           | p :: ps => String a p :: ps
           | [] => [String a EmptyString]
           end
  end.

(** [bytes.SplitAfter] for a one-byte separator: every part but the last
    ends with the separator; always at least one part. *)
Fixpoint SplitAfter (s : string) (sep : ascii) : list string :=
  match s with
  | EmptyString => [EmptyString]
  | String a r =>
      if Ascii.eqb a sep then String a EmptyString :: SplitAfter r sep
      else match SplitAfter r sep with
           | p :: ps => String a p :: ps
           | [] => [String a EmptyString]
           end
  end.

(** The last byte of a non-empty string, [s[len(s)-1]]. *)
Fixpoint lastByte (s : string) : option ascii :=
  match s with
  | EmptyString => None
  | String a EmptyString => Some a
  | String _ r => lastByte r
  end.

End strings.

Module fmt.

(** White space as [fmt]'s scanner sees it within one line. *)
Definition isSpace (a : ascii) : bool :=
  let n := nat_of_ascii a in
  orb (Nat.eqb n 32) (andb (Nat.leb 9 n) (Nat.leb n 13)).

(** The white-space separated tokens of a line; [cur] is the token being
    read. *)
Fixpoint fieldsFrom (s : string) (cur : string) : list string :=
  match s with
  | EmptyString => if String.eqb cur "" then [] else [cur]
  | String a r =>
      if isSpace a
      then (if String.eqb cur "" then fieldsFrom r "" else cur :: fieldsFrom r "")
      else fieldsFrom r (cur ++ String a EmptyString)
  end.

Definition Fields (s : string) : list string := fieldsFrom s "".

(** [fmt.Sscanf(line, "%s ... %s", ...)] with [k] verbs: the tokens that
    were stored, at most [k]; the call reports an error exactly when fewer
    than [k] were found, and its count is the length of the result. *)
Definition Sscanf (k : nat) (line : string) : list string := firstn k (Fields line).

(** [%d] *)
Definition d (n : Z) : string := DecimalString.NilZero.string_of_int (Z.to_int n).

(** [%x] of an unsigned number *)
Definition x (n : Z) : string :=
  HexadecimalString.NilZero.string_of_uint (N.to_hex_uint (Z.to_N n)).

End fmt.


(** ** Data model *)

(** [type state int] *)
Inductive state := stateNew | stateInitial | stateMail | stateRecipient | stateData.

(** [type delivery int] *)
Inductive delivery := deliverUnknown | deliverInbound | deliverOutbound.

Definition state_eqb (a b : state) : bool :=
  match a, b with
  | stateNew, stateNew | stateInitial, stateInitial | stateMail, stateMail
  | stateRecipient, stateRecipient | stateData, stateData => true
  | _, _ => false
  end.

Definition delivery_eqb (a b : delivery) : bool :=
  match a, b with
  | deliverUnknown, deliverUnknown | deliverInbound, deliverInbound
  | deliverOutbound, deliverOutbound => true
  | _, _ => false
  end.

(** [func (d delivery) String() string] *)
Definition delivery_String (d : delivery) : string :=
  match d with
  | deliverUnknown => "unknown"
  | deliverInbound => "inbound"
  | deliverOutbound => "outbound"
  end.

Module mail.

(** [net/mail.Address]; [Addr] is the Go field [Address]. *)
Record Address := mkAddress { Name : string; Addr : string }.

End mail.

Module crypto_tls.

(** [tls.ConnectionState], the fields the session reads. *)
Record ConnectionState := mkConnectionState {
  Version : Z;
  CipherSuite : Z;
  ServerName : string
}.

(** [tls.Config] is opaque to the session: only its presence is tested. *)
Inductive Config := config.

End crypto_tls.

(** [ReplyLine], declared next to the [Server] interface. *)
Record ReplyLine := mkReply { Code : Z; Message : string }.

Definition ReplyLine_eqb (a b : ReplyLine) : bool :=
  andb (Code a =? Code b) (String.eqb (Message a) (Message b)).

(** Points in time as [time.Now] returns them. *)
Definition Instant := nat.

(** [Envelope], declared next to the [Server] interface; the fields are
    those [doDATA] fills in. *)
Record Envelope := mkEnvelope {
  RemoteAddr : string;
  EHLO : string;
  MailFrom : mail.Address;
  RcptTo : list mail.Address;
  Received : Instant;
  ID : string;
  Data : string
}.

(** The [Server] interface, as far as the session calls it.
    [RelayMessage] returns nothing; the call is recorded in the session's
    trace of hand-offs instead. *)
Class Server := {
  Name : string;
  TLSConfig : option crypto_tls.Config;
  VerifyAddress : mail.Address -> ReplyLine;
  Authenticate : string -> string -> string -> bool;
  DeliverMessage : Envelope -> option ReplyLine
}.

(** What the session takes from the Go standard library and from the
    declarations of package [smtp] that accompany the [Server] interface
    (the canonical replies, the send-as pattern, the two helpers of the
    trace header).  [None] stands for a returned error or a nil result. *)
Class Runtime := {
  (* package smtp *)
  ReplyOK : ReplyLine;
  ReplyAuthOK : ReplyLine;
  ReplyBadSyntax : ReplyLine;
  ReplyBadSequence : ReplyLine;
  (* SendAsSubject.FindSubmatchIndex: the bounds of the match and of its
     first group *)
  SendAsSubject_FindSubmatchIndex : string -> option (Z * Z * Z * Z);
  lookupRemoteHost : string -> string;
  generateEnvelopeId : string -> Instant -> string;
  (* net/mail, encoding/base64, time *)
  ParseAddress : string -> option mail.Address;
  DecodeString : string -> option string;
  FormatRFC1123Z : Instant -> string
}.

(** Modelled from the spec: [DomainForAddressString] is declared outside
    [conn.go]; the spec calls its result the domain of an identity, taken
    here as what follows the last at-sign, and nothing when there is none. *)
Definition DomainForAddressString (address : string) : string :=
  let domainIdx := strings.LastIndex address "@" in
  if domainIdx =? -1 then "" else strings.sliceFrom address (domainIdx + 1).

(** Modelled from the spec: [DomainForAddress], the domain of a parsed
    address, declared outside [conn.go]. *)
Definition DomainForAddress (addr : mail.Address) : string :=
  DomainForAddressString (mail.Addr addr).

Module textproto.

(** [textproto.Conn] seen from the session: the lines the client has yet to
    send, the lines written to it so far (oldest first), and whether
    [Close] was called. *)
Record Conn := mkConn {
  pending : list string;
  sent : list string;
  closed : bool
}.

Definition NewConn (lines : list string) : Conn := mkConn lines [] false.

(** [ReadLine]: the next line, or an error when the client has no more to
    send or the connection is closed. *)
Definition ReadLine (t : Conn) : option string * Conn :=
  if closed t then (None, t)
  else match pending t with
       | [] => (None, t)
       | l :: r => (Some l, mkConn r (sent t) false)
       end.

(** [PrintfLine]; writing to a closed connection is an error, which the
    session ignores. *)
Definition PrintfLine (t : Conn) (l : string) : Conn :=
  if closed t then t else mkConn (pending t) (sent t ++ [l]) false.

Definition Close (t : Conn) : Conn := mkConn (pending t) (sent t) true.

(** One line of a dot-encoded block with its leading dot removed. *)
Definition undot (l : string) : string :=
  match l with
  | String "." r => r
  | _ => l
  end.

(** The lines of a dot-encoded block up to the line that holds a single
    dot, each ended by a line feed; [None] when the input ends first. *)
Fixpoint dotBlock (ls : list string) : option string * list string :=
  match ls with
  | [] => (None, [])
  | l :: r =>
      if String.eqb l "." then (Some "", r)
      else match dotBlock r with
           | (Some body, r') => (Some (undot l ++ String "010" body), r')
           | (None, r') => (None, r')
           end
  end.

(** [ReadDotBytes] *)
Definition ReadDotBytes (t : Conn) : option string * Conn :=
  if closed t then (None, t)
  else let (body, r) := dotBlock (pending t) in (body, mkConn r (sent t) false).

End textproto.

(** [net.Conn] seen from the session: the outcome of each TLS handshake
    that would be run on it, in order ([None]: the handshake fails). *)
Record netConn := mkNetConn {
  handshakes : list (option crypto_tls.ConnectionState)
}.

(** [tls.Server(nc, config).Handshake()] followed by [ConnectionState()] *)
Definition Handshake (n : netConn) : option crypto_tls.ConnectionState * netConn :=
  match handshakes n with
  | [] => (None, n)
  | h :: r => (h, mkNetConn r)
  end.

(** A call the session made on the collaborator with a finished envelope. *)
Inductive handoff :=
| Delivered (env : Envelope)
| Relayed (env : Envelope).

(** [type connection struct]; [server] and [log] are left out (the server
    is the [Server] instance in scope, logging has no effect on the
    session).  Two fields are added to the Go struct: [handed], the
    envelopes passed to the server so far, and [clock], the time the next
    [time.Now] returns. *)
Record connection := mkConnection {
  tp : textproto.Conn;
  nc : netConn;
  remoteAddr : string;
  esmtp : bool;
  tls : option crypto_tls.ConnectionState;
  authc : string;
  conn_state : state;
  line : string;
  conn_delivery : delivery;
  sendAs : option mail.Address;
  ehlo : string;
  mailFrom : option mail.Address;
  rcptTo : list mail.Address;
  handed : list handoff;
  clock : Instant
}.

Definition set_tp (c : connection) (v : textproto.Conn) : connection :=
  mkConnection v (nc c) (remoteAddr c) (esmtp c) (tls c) (authc c) (conn_state c)
    (line c) (conn_delivery c) (sendAs c) (ehlo c) (mailFrom c) (rcptTo c)
    (handed c) (clock c).

Definition set_nc (c : connection) (v : netConn) : connection :=
  mkConnection (tp c) v (remoteAddr c) (esmtp c) (tls c) (authc c) (conn_state c)
    (line c) (conn_delivery c) (sendAs c) (ehlo c) (mailFrom c) (rcptTo c)
    (handed c) (clock c).

Definition set_esmtp (c : connection) (v : bool) : connection :=
  mkConnection (tp c) (nc c) (remoteAddr c) v (tls c) (authc c) (conn_state c)
    (line c) (conn_delivery c) (sendAs c) (ehlo c) (mailFrom c) (rcptTo c)
    (handed c) (clock c).

Definition set_tls (c : connection) (v : option crypto_tls.ConnectionState) : connection :=
  mkConnection (tp c) (nc c) (remoteAddr c) (esmtp c) v (authc c) (conn_state c)
    (line c) (conn_delivery c) (sendAs c) (ehlo c) (mailFrom c) (rcptTo c)
    (handed c) (clock c).

Definition set_authc (c : connection) (v : string) : connection :=
  mkConnection (tp c) (nc c) (remoteAddr c) (esmtp c) (tls c) v (conn_state c)
    (line c) (conn_delivery c) (sendAs c) (ehlo c) (mailFrom c) (rcptTo c)
    (handed c) (clock c).

Definition set_state (c : connection) (v : state) : connection :=
  mkConnection (tp c) (nc c) (remoteAddr c) (esmtp c) (tls c) (authc c) v
    (line c) (conn_delivery c) (sendAs c) (ehlo c) (mailFrom c) (rcptTo c)
    (handed c) (clock c).

Definition set_line (c : connection) (v : string) : connection :=
  mkConnection (tp c) (nc c) (remoteAddr c) (esmtp c) (tls c) (authc c) (conn_state c)
    v (conn_delivery c) (sendAs c) (ehlo c) (mailFrom c) (rcptTo c)
    (handed c) (clock c).

Definition set_delivery (c : connection) (v : delivery) : connection :=
  mkConnection (tp c) (nc c) (remoteAddr c) (esmtp c) (tls c) (authc c) (conn_state c)
    (line c) v (sendAs c) (ehlo c) (mailFrom c) (rcptTo c)
    (handed c) (clock c).

Definition set_sendAs (c : connection) (v : option mail.Address) : connection :=
  mkConnection (tp c) (nc c) (remoteAddr c) (esmtp c) (tls c) (authc c) (conn_state c)
    (line c) (conn_delivery c) v (ehlo c) (mailFrom c) (rcptTo c)
    (handed c) (clock c).

Definition set_ehlo (c : connection) (v : string) : connection :=
  mkConnection (tp c) (nc c) (remoteAddr c) (esmtp c) (tls c) (authc c) (conn_state c)
    (line c) (conn_delivery c) (sendAs c) v (mailFrom c) (rcptTo c)
    (handed c) (clock c).

Definition set_mailFrom (c : connection) (v : option mail.Address) : connection :=
  mkConnection (tp c) (nc c) (remoteAddr c) (esmtp c) (tls c) (authc c) (conn_state c)
    (line c) (conn_delivery c) (sendAs c) (ehlo c) v (rcptTo c)
    (handed c) (clock c).

Definition set_rcptTo (c : connection) (v : list mail.Address) : connection :=
  mkConnection (tp c) (nc c) (remoteAddr c) (esmtp c) (tls c) (authc c) (conn_state c)
    (line c) (conn_delivery c) (sendAs c) (ehlo c) (mailFrom c) v
    (handed c) (clock c).

Definition set_handed (c : connection) (v : list handoff) : connection :=
  mkConnection (tp c) (nc c) (remoteAddr c) (esmtp c) (tls c) (authc c) (conn_state c)
    (line c) (conn_delivery c) (sendAs c) (ehlo c) (mailFrom c) (rcptTo c)
    v (clock c).

Definition set_clock (c : connection) (v : Instant) : connection :=
  mkConnection (tp c) (nc c) (remoteAddr c) (esmtp c) (tls c) (authc c) (conn_state c)
    (line c) (conn_delivery c) (sendAs c) (ehlo c) (mailFrom c) (rcptTo c)
    (handed c) v.

(** How a handler ends: it returns, or the Go runtime panics (a nil
    pointer is dereferenced). *)
Inductive result :=
| Returns (c : connection)
| Panics (c : connection).

(** ** The session of [conn.go] *)

Section Session.

Context {server : Server} {rt : Runtime}.

(** [func (conn *connection) writeReply(code int, msg string) error] *)
Definition writeReply (c : connection) (code : Z) (msg : string) : connection :=
  if 0 <? strings.len msg
  then set_tp c (textproto.PrintfLine (tp c) (fmt.d code ++ " " ++ msg))
  else set_tp c (textproto.PrintfLine (tp c) (fmt.d code)).

(** [func (conn *connection) reply(reply ReplyLine) error] *)
Definition reply (c : connection) (r : ReplyLine) : connection :=
  writeReply c (Code r) (Message r).

(** [conn.tp.PrintfLine(...)] *)
Definition PrintfLine (c : connection) (l : string) : connection :=
  set_tp c (textproto.PrintfLine (tp c) l).

(** [func (conn *connection) parsePath(command string) (string, ReplyLine)] *)
Definition parsePath (c : connection) (command : string) : string * ReplyLine :=
  if strings.len (line c) <? strings.len command then ("", ReplyBadSyntax)
  else if negb (String.eqb (strings.ToUpper command)
                  (strings.ToUpper (strings.sliceTo (line c) (strings.len command))))
  then ("", mkReply 500 "unrecognized command")
  else
    let params := strings.sliceFrom (line c) (strings.len command) in
    let idx := strings.Index params ">" in
    if idx =? -1 then ("", ReplyBadSyntax)
    else (strings.ToLower (strings.sliceTo params (idx + 1)), ReplyOK).

(** [func (conn *connection) resetBuffers()] *)
Definition resetBuffers (c : connection) : connection :=
  let c := set_delivery c deliverUnknown in
  let c := set_sendAs c None in
  let c := set_mailFrom c None in
  set_rcptTo c [].

(** [func (conn *connection) doEHLO()] *)
Definition doEHLO (c : connection) : connection :=
  let c := resetBuffers c in
  match fmt.Sscanf 2 (line c) with
  | [cmd; name] =>
      let c := set_ehlo c name in
      let c :=
        if String.eqb cmd "HELO"
        then writeReply c 250 ("Hello " ++ ehlo c ++ " [" ++ remoteAddr c ++ "]")
        else
          let c := PrintfLine c ("250-Hello " ++ ehlo c ++ " [" ++ remoteAddr c ++ "]") in
          let c :=
            match TLSConfig, tls c with
            | Some _, None => PrintfLine c "250-STARTTLS"
            | _, _ => c
            end in
          let c :=
            match tls c with
            | Some _ => PrintfLine c "250-AUTH PLAIN"
            | None => c
            end in
          PrintfLine c ("250 SIZE " ++ fmt.d 40960000) in
      set_state c stateInitial
  | _ => reply c ReplyBadSyntax
  end.

(** [func (conn *connection) doSTARTTLS()] *)
Definition doSTARTTLS (c : connection) : connection :=
  if negb (state_eqb (conn_state c) stateInitial) then reply c ReplyBadSequence
  else
    match esmtp c, TLSConfig with
    | true, Some tlsConfig =>
        let c := writeReply c 220 "initiate TLS connection" in
        match Handshake (nc c) with
        | (None, n) => set_nc c n
        | (Some connState, n) =>
            let c := set_nc c n in
            let c := set_state c stateNew in
            set_tls c (Some connState)
        end
    | _, _ => writeReply c 500 "unrecognized command"
    end.

(** [doAUTH] from the point where [authString] holds the base64 payload. *)
Definition authenticate (c : connection) (authString : string) : connection :=
  match DecodeString authString with
  | None => reply c ReplyBadSyntax
  | Some authBytes =>
      match strings.Split authBytes "000" with
      | [authz; authcid; passwd] =>
          if negb (Authenticate authz authcid passwd)
          then writeReply c 535 "invalid credentials"
          else reply (set_authc c authcid) ReplyAuthOK
      | _ => reply c ReplyBadSyntax
      end
  end.

(** [func (conn *connection) doAUTH()] *)
Definition doAUTH (c : connection) : connection :=
  if orb (negb (state_eqb (conn_state c) stateInitial))
         (match tls c with None => true | Some _ => false end)
  then reply c ReplyBadSequence
  else if negb (String.eqb (authc c) "") then writeReply c 503 "already authenticated"
  else
    let scanned := fmt.Sscanf 3 (line c) in
    let n := Z.of_nat (List.length scanned) in
    let authType := nth 1 scanned "" in
    let authString := nth 2 scanned "" in
    if n <? 2 then reply c ReplyBadSyntax
    else if negb (String.eqb authType "PLAIN") then writeReply c 504 "unrecognized auth type"
    else if andb (n =? 2)
                 (match strings.lastByte (line c) with
                  | Some b => negb (Ascii.eqb b " ")
                  | None => true
                  end)
    then reply c ReplyBadSyntax
    else if String.eqb authString ""
    then
      let c := writeReply c 334 " " in
      match textproto.ReadLine (tp c) with
      | (None, t) => reply (set_tp c t) ReplyBadSyntax
      | (Some l, t) => authenticate (set_tp c t) l
      end
    else authenticate c authString.

(** [func (conn *connection) doMAIL()] *)
Definition doMAIL (c : connection) : connection :=
  if negb (state_eqb (conn_state c) stateInitial) then reply c ReplyBadSequence
  else
    let (path, r) := parsePath c "MAIL FROM:" in
    if negb (ReplyLine_eqb r ReplyOK) then reply c r
    else
      let c := set_mailFrom c (ParseAddress path) in
      match mailFrom c with
      | None => reply c ReplyBadSyntax
      | Some from =>
          if ReplyLine_eqb (VerifyAddress from) ReplyOK
          then
            if negb (String.eqb (DomainForAddress from) (DomainForAddressString (authc c)))
            then writeReply c 550 "not authenticated"
            else
              let c := set_delivery c deliverOutbound in
              reply (set_state c stateMail) ReplyOK
          else
            let c := set_delivery c deliverInbound in
            reply (set_state c stateMail) ReplyOK
      end.

(** [func (conn *connection) doRCPT()] *)
Definition doRCPT (c : connection) : connection :=
  if andb (negb (state_eqb (conn_state c) stateMail))
          (negb (state_eqb (conn_state c) stateRecipient))
  then reply c ReplyBadSequence
  else
    let (path, r) := parsePath c "RCPT TO:" in
    if negb (ReplyLine_eqb r ReplyOK) then reply c r
    else
      match ParseAddress path with
      | None => reply c ReplyBadSyntax
      | Some address =>
          let r := VerifyAddress address in
          if andb (negb (ReplyLine_eqb r ReplyOK))
                  (delivery_eqb (conn_delivery c) deliverInbound)
          then reply c r
          else
            let c := set_rcptTo c (rcptTo c ++ [address]) in
            reply (set_state c stateRecipient) ReplyOK
      end.

(** [func (conn *connection) doRSET()] *)
Definition doRSET (c : connection) : connection :=
  let c := set_state c stateInitial in
  reply (resetBuffers c) ReplyOK.

(** The first loop of [handleSendAs]: the positions of the [From:] and
    [Subject:] headers, each starting from the value the caller passes and
    overwritten at every header that matches. *)
Fixpoint findHeaders (headers : list string) (i fromIdx subjectIdx : Z) : Z * Z :=
  match headers with
  | [] => (fromIdx, subjectIdx)
  | header :: rest =>
      if strings.HasPrefix header "From:" then findHeaders rest (i + 1) i subjectIdx
      else if strings.HasPrefix header "Subject:" then findHeaders rest (i + 1) fromIdx i
      else findHeaders rest (i + 1) fromIdx subjectIdx
  end.

(** The second loop of [handleSendAs]: what is written to [buf]. *)
Fixpoint rewriteHeaders (headers : list string) (i fromIdx subjectIdx : Z)
    (m0 m1 : Z) (sendAsAddress : string) : string :=
  match headers with
  | [] => ""
  | header :: rest =>
      (if i =? subjectIdx
       then strings.sliceTo header m0 ++ strings.sliceFrom header m1
       else if i =? fromIdx
       then
         let addressStart := strings.LastIndexByte header "<" in
         strings.sliceTo header (addressStart + 1) ++ sendAsAddress ++ ">" ++ String "010" ""
       else header)
      ++ rewriteHeaders rest (i + 1) fromIdx subjectIdx m0 m1 sendAsAddress
  end.

(** [func (conn *connection) handleSendAs(env *Envelope)]: the envelope
    as the call leaves it. *)
Definition handleSendAs (c : connection) (env : Envelope) : Envelope :=
  if negb (delivery_eqb (conn_delivery c) deliverOutbound) then env
  else
    let headerIdx := strings.Index (Data env) (String "010" (String "010" "")) in
    if headerIdx =? -1 then env
    else
      let headers := strings.SplitAfter (strings.sliceTo (Data env) headerIdx) "010" in
      let (fromIdx, subjectIdx) := findHeaders headers 0 0 0 in
      if subjectIdx =? -1 then env
      else if fromIdx =? -1 then env
      else
        let subject := nth (Z.to_nat subjectIdx) headers "" in
        match SendAsSubject_FindSubmatchIndex subject with
        | None => env
        | Some (m0, m1, m2, m3) =>
            let sendAsUser := strings.slice subject m2 m3 in
            let sendAsAddress := sendAsUser ++ "@" ++ DomainForAddressString (authc c) in
            let buf := rewriteHeaders headers 0 fromIdx subjectIdx m0 m1 sendAsAddress in
            mkEnvelope (RemoteAddr env) (EHLO env)
              (mail.mkAddress (mail.Name (MailFrom env)) sendAsAddress)
              (RcptTo env) (Received env) (ID env)
              (buf ++ strings.sliceFrom (Data env) headerIdx)
        end.

(** The tables of [getTransportString], keyed by the numbers the constants
    of [crypto/tls] stand for. *)
Definition ciphers : list (Z * string) :=
  [ (0x0005, "TLS_RSA_WITH_RC4_128_SHA");
    (0x000a, "TLS_RSA_WITH_3DES_EDE_CBC_SHA");
    (0x002f, "TLS_RSA_WITH_AES_128_CBC_SHA");
    (0x0035, "TLS_RSA_WITH_AES_256_CBC_SHA");
    (0x003c, "TLS_RSA_WITH_AES_128_CBC_SHA256");
    (0x009c, "TLS_RSA_WITH_AES_128_GCM_SHA256");
    (0x009d, "TLS_RSA_WITH_AES_256_GCM_SHA384");
    (0xc007, "TLS_ECDHE_ECDSA_WITH_RC4_128_SHA");
    (0xc009, "TLS_ECDHE_ECDSA_WITH_AES_128_CBC_SHA");
    (0xc00a, "TLS_ECDHE_ECDSA_WITH_AES_256_CBC_SHA");
    (0xc011, "TLS_ECDHE_RSA_WITH_RC4_128_SHA");
    (0xc012, "TLS_ECDHE_RSA_WITH_3DES_EDE_CBC_SHA");
    (0xc013, "TLS_ECDHE_RSA_WITH_AES_128_CBC_SHA");
    (0xc014, "TLS_ECDHE_RSA_WITH_AES_256_CBC_SHA");
    (0xc023, "TLS_ECDHE_ECDSA_WITH_AES_128_CBC_SHA256");
    (0xc027, "TLS_ECDHE_RSA_WITH_AES_128_CBC_SHA256");
    (0xc02f, "TLS_ECDHE_RSA_WITH_AES_128_GCM_SHA256");
    (0xc02b, "TLS_ECDHE_ECDSA_WITH_AES_128_GCM_SHA256");
    (0xc030, "TLS_ECDHE_RSA_WITH_AES_256_GCM_SHA384");
    (0xc02c, "TLS_ECDHE_ECDSA_WITH_AES_256_GCM_SHA384");
    (0xcca8, "TLS_ECDHE_RSA_WITH_CHACHA20_POLY1305_SHA256");
    (0xcca9, "TLS_ECDHE_ECDSA_WITH_CHACHA20_POLY1305_SHA256");
    (0x1301, "TLS_AES_128_GCM_SHA256");
    (0x1302, "TLS_AES_256_GCM_SHA384");
    (0x1303, "TLS_CHACHA20_POLY1305_SHA256") ].

Definition versions : list (Z * string) :=
  [ (0x0300, "SSLv3.0"); (0x0301, "TLSv1.0"); (0x0302, "TLSv1.1");
    (0x0303, "TLSv1.2"); (0x0304, "TLSv1.3") ].

(** [m[k]] on a [map[uint16]string]: the empty string for a missing key. *)
Fixpoint mapIndex (m : list (Z * string)) (k : Z) : string :=
  match m with
  | [] => ""
  | (k', v) :: r => if k' =? k then v else mapIndex r k
  end.

(** [func (conn *connection) getTransportString() string] *)
Definition getTransportString (c : connection) : string :=
  match tls c with
  | None => "PLAINTEXT"
  | Some st =>
      let version := mapIndex versions (crypto_tls.Version st) in
      let cipher := mapIndex ciphers (crypto_tls.CipherSuite st) in
      let version := if String.eqb version "" then fmt.x (crypto_tls.Version st) else version in
      let cipher := if String.eqb cipher "" then fmt.x (crypto_tls.CipherSuite st) else cipher in
      let name :=
        if negb (String.eqb (crypto_tls.ServerName st) "")
        then " name=" ++ crypto_tls.ServerName st else "" in
      version ++ " cipher=" ++ cipher ++ name
  end.

(** The variable [with] of [getReceivedInfo]: the protocol named in the
    trace header. *)
Definition withProtocol (c : connection) : string :=
  let with_ := "SMTP" in
  let with_ := if esmtp c then "E" ++ with_ else with_ in
  match tls c with
  | Some _ => with_ ++ "S"
  | None => with_
  end.

Definition CRLF : string := String "013" (String "010" "").

Definition LF : string := String "010" "".

(** [func (conn *connection) getReceivedInfo(envelope Envelope) []byte] *)
Definition getReceivedInfo (c : connection) (envelope : Envelope) : string :=
  let base :=
    "Received: from " ++ ehlo c ++ " (" ++ lookupRemoteHost (remoteAddr c) ++ ")"
    ++ CRLF ++ "        " in
  let base :=
    base ++ "by " ++ Name ++ " (mailpopbox) with " ++ withProtocol c
    ++ " id " ++ ID envelope ++ CRLF ++ "        " in
  let base :=
    match RcptTo envelope with
    | first :: _ => base ++ "for <" ++ mail.Addr first ++ ">" ++ CRLF ++ "        "
    | [] => base
    end in
  let transport := getTransportString c in
  let date := FormatRFC1123Z (Received envelope) in
  base ++ "(using " ++ transport ++ ");" ++ CRLF ++ "        " ++ date ++ CRLF.

(** The envelope [doDATA] builds from the body it has read: the struct
    literal, the send-as rewrite, and the trace header put in front. *)
Definition assemble (c : connection) (from : mail.Address) (received : Instant)
    (data : string) : Envelope :=
  let env :=
    mkEnvelope (remoteAddr c) (ehlo c) from (rcptTo c) received
      (generateEnvelopeId "m" received) data in
  let env := handleSendAs c env in
  let trace := getReceivedInfo c env in
  mkEnvelope (RemoteAddr env) (EHLO env) (MailFrom env) (RcptTo env)
    (Received env) (ID env) (trace ++ Data env).

(** The end of a transaction that went through. *)
Definition finish (c : connection) : result :=
  let c := set_state c stateInitial in
  Returns (reply (resetBuffers c) ReplyOK).

(** [func (conn *connection) doDATA()] *)
Definition doDATA (c : connection) : result :=
  if negb (state_eqb (conn_state c) stateRecipient) then Returns (reply c ReplyBadSequence)
  else
    let c := writeReply c 354 "Start mail input; end with <CRLF>.<CRLF>" in
    match textproto.ReadDotBytes (tp c) with
    | (None, t) => Returns (writeReply (set_tp c t) 552 "transaction failed")
    | (Some data, t) =>
        let c := set_tp c t in
        let received := clock c in
        let c := set_clock c (S received) in
        match mailFrom c with
        | None => Panics c
        | Some from =>
            let env := assemble c from received data in
            match conn_delivery c with
            | deliverInbound =>
                let c := set_handed c (handed c ++ [Delivered env]) in
                match DeliverMessage env with
                | Some r => Returns (reply c r)
                | None => finish c
                end
            | deliverOutbound => finish (set_handed c (handed c ++ [Relayed env]))
            | deliverUnknown => finish c
            end
        end
    end.

(** What one turn of the command loop leads to. *)
Inductive turn :=
| Continue (c : connection)
| Return (c : connection)
| Panic (c : connection).

Definition handled (r : result) : turn :=
  match r with
  | Returns c => Continue c
  | Panics c => Panic c
  end.

(** The body of the [for] loop of [AcceptConnection]. *)
Definition serveLine (c : connection) : turn :=
  match textproto.ReadLine (tp c) with
  | (None, t) => Return (set_tp c (textproto.Close t))
  | (Some l, t) =>
      let c := set_line (set_tp c t) l in
      match fmt.Sscanf 1 (line c) with
      | [cmd] =>
          let cmd := strings.ToUpper cmd in
          if String.eqb cmd "QUIT" then
            let c := writeReply c 221 "Goodbye" in
            Return (set_tp c (textproto.Close (tp c)))
          else if String.eqb cmd "HELO" then
            let c := set_esmtp c false in
            let c := set_esmtp c true in
            Continue (doEHLO c)
          else if String.eqb cmd "EHLO" then
            let c := set_esmtp c true in
            Continue (doEHLO c)
          else if String.eqb cmd "STARTTLS" then Continue (doSTARTTLS c)
          else if String.eqb cmd "AUTH" then Continue (doAUTH c)
          else if String.eqb cmd "MAIL" then Continue (doMAIL c)
          else if String.eqb cmd "RCPT" then Continue (doRCPT c)
          else if String.eqb cmd "DATA" then handled (doDATA c)
          else if String.eqb cmd "RSET" then Continue (doRSET c)
          else if String.eqb cmd "VRFY" then Continue (writeReply c 252 "I'll do my best")
          else if String.eqb cmd "EXPN" then Continue (writeReply c 550 "access denied")
          else if String.eqb cmd "NOOP" then Continue (reply c ReplyOK)
          else if String.eqb cmd "HELP"
          then Continue (writeReply c 250 "https://tools.ietf.org/html/rfc5321")
          else Continue (writeReply c 500 "unrecognized command")
      | _ => Continue (reply c ReplyBadSyntax)
      end
  end.

(** The [for] loop, for at most [fuel] turns; [None] when the loop is
    still running after that many. *)
Fixpoint serve (fuel : nat) (c : connection) : option turn :=
  match fuel with
  | O => None
  | S fuel' =>
      match serveLine c with
      | Continue c' => serve fuel' c'
      | stop => Some stop
      end
  end.

(** The connection [AcceptConnection] starts from: [netConn] delivers
    [lines] and decides the handshakes as [hs] says. *)
Definition newConnection (remote : string) (lines : list string)
    (hs : list (option crypto_tls.ConnectionState)) (now : Instant) : connection :=
  mkConnection (textproto.NewConn lines) (mkNetConn hs) remote false None ""
    stateNew "" deliverUnknown None "" None [] [] now.

(** [func AcceptConnection(netConn net.Conn, server Server, log *zap.Logger)] *)
Definition AcceptConnection (fuel : nat) (remote local : string) (lines : list string)
    (hs : list (option crypto_tls.ConnectionState)) (now : Instant) : option turn :=
  let conn := newConnection remote lines hs now in
  let conn := writeReply conn 220 (Name ++ " ESMTP [" ++ local ++ "] (mailpopbox)") in
  serve fuel conn.

(** The connection after [n] more turns of the loop, as long as it keeps
    running. *)
Fixpoint after (n : nat) (c : connection) : option connection :=
  match n with
  | O => Some c
  | S n' =>
      match serveLine c with
      | Continue c' => after n' c'
      | _ => None
      end
  end.

End Session.

(** The line a reply is sent as. *)
Definition wire (r : ReplyLine) : string :=
  if 0 <? strings.len (Message r)
  then fmt.d (Code r) ++ " " ++ Message r
  else fmt.d (Code r).

(** A session is authenticated when [authc] holds an identity: the field
    is non-empty iff [doAUTH] succeeded. *)
Definition authenticated (c : connection) : Prop := authc c <> "".

(** ** The earlier revision of the session

    The second source file is an earlier revision of [conn.go]: no TLS
    upgrade, no authentication, no delivery classification, and a server
    interface with [OnMessageDelivered] in place of [DeliverMessage] and
    [RelayMessage]. *)

Module Legacy.

Class Server := {
  Name : string;
  TLSConfig : option crypto_tls.Config;
  VerifyAddress : mail.Address -> ReplyLine;
  OnMessageDelivered : Envelope -> option ReplyLine
}.

(** What this revision takes from [net] and [crypto/rand]. *)
Class Net := {
  (* the host part of [net.SplitHostPort], when the address splits *)
  SplitHostPort : string -> option string;
  (* the first name [net.LookupAddr] finds, when the lookup succeeds *)
  LookupAddr : string -> option string;
  (* [%x] of the four bytes [rand.Read] fills in for an envelope *)
  randomSuffix : Instant -> string
}.

(** [type connection struct] of the earlier revision, with the same two
    added fields as above. *)
Record connection := mkConnection {
  tp : textproto.Conn;
  remoteAddr : string;
  esmtp : bool;
  tls : bool;
  conn_state : state;
  line : string;
  ehlo : string;
  mailFrom : option mail.Address;
  rcptTo : list mail.Address;
  handed : list handoff;
  clock : Instant
}.

Definition set_tp (c : connection) (v : textproto.Conn) : connection :=
  mkConnection v (remoteAddr c) (esmtp c) (tls c) (conn_state c) (line c) (ehlo c)
    (mailFrom c) (rcptTo c) (handed c) (clock c).

Definition set_esmtp (c : connection) (v : bool) : connection :=
  mkConnection (tp c) (remoteAddr c) v (tls c) (conn_state c) (line c) (ehlo c)
    (mailFrom c) (rcptTo c) (handed c) (clock c).

Definition set_state (c : connection) (v : state) : connection :=
  mkConnection (tp c) (remoteAddr c) (esmtp c) (tls c) v (line c) (ehlo c)
    (mailFrom c) (rcptTo c) (handed c) (clock c).

Definition set_line (c : connection) (v : string) : connection :=
  mkConnection (tp c) (remoteAddr c) (esmtp c) (tls c) (conn_state c) v (ehlo c)
    (mailFrom c) (rcptTo c) (handed c) (clock c).

Definition set_ehlo (c : connection) (v : string) : connection :=
  mkConnection (tp c) (remoteAddr c) (esmtp c) (tls c) (conn_state c) (line c) v
    (mailFrom c) (rcptTo c) (handed c) (clock c).

Definition set_mailFrom (c : connection) (v : option mail.Address) : connection :=
  mkConnection (tp c) (remoteAddr c) (esmtp c) (tls c) (conn_state c) (line c) (ehlo c)
    v (rcptTo c) (handed c) (clock c).

Definition set_rcptTo (c : connection) (v : list mail.Address) : connection :=
  mkConnection (tp c) (remoteAddr c) (esmtp c) (tls c) (conn_state c) (line c) (ehlo c)
    (mailFrom c) v (handed c) (clock c).

Definition set_handed (c : connection) (v : list handoff) : connection :=
  mkConnection (tp c) (remoteAddr c) (esmtp c) (tls c) (conn_state c) (line c) (ehlo c)
    (mailFrom c) (rcptTo c) v (clock c).

Definition set_clock (c : connection) (v : Instant) : connection :=
  mkConnection (tp c) (remoteAddr c) (esmtp c) (tls c) (conn_state c) (line c) (ehlo c)
    (mailFrom c) (rcptTo c) (handed c) v.

Inductive result :=
| Returns (c : connection)
| Panics (c : connection).

Section Session.

Context {server : Server} {rt : Runtime} {net : Net}.

(** [func (conn *connection) writeReply(code int, msg string)] *)
Definition writeReply (c : connection) (code : Z) (msg : string) : connection :=
  if 0 <? strings.len msg
  then set_tp c (textproto.PrintfLine (tp c) (fmt.d code ++ " " ++ msg))
  else set_tp c (textproto.PrintfLine (tp c) (fmt.d code)).

(** [func (conn *connection) reply(reply ReplyLine)] *)
Definition reply (c : connection) (r : ReplyLine) : connection :=
  writeReply c (Code r) (Message r).

Definition PrintfLine (c : connection) (l : string) : connection :=
  set_tp c (textproto.PrintfLine (tp c) l).

(** [func (conn *connection) parsePath(command string) (string, ReplyLine)] *)
Definition parsePath (c : connection) (command : string) : string * ReplyLine :=
  if strings.len (line c) <? strings.len command then ("", ReplyBadSyntax)
  else if negb (String.eqb (strings.ToUpper command)
                  (strings.ToUpper (strings.sliceTo (line c) (strings.len command))))
  then ("", mkReply 500 "unrecognized command")
  else (strings.sliceFrom (line c) (strings.len command), ReplyOK).

(** [func (conn *connection) resetBuffers()] *)
Definition resetBuffers (c : connection) : connection :=
  set_rcptTo (set_mailFrom c None) [].

(** [func (conn *connection) doEHLO()] *)
Definition doEHLO (c : connection) : connection :=
  let c := resetBuffers c in
  match fmt.Sscanf 2 (line c) with
  | [cmd; name] =>
      let c := set_ehlo c name in
      let c :=
        if String.eqb cmd "HELO"
        then writeReply c 250 ("Hello " ++ ehlo c ++ " [" ++ remoteAddr c ++ "]")
        else
          let c := PrintfLine c ("250-Hello " ++ ehlo c ++ " [" ++ remoteAddr c ++ "]") in
          let c :=
            match TLSConfig with
            | Some _ => PrintfLine c "250-STARTTLS"
            | None => c
            end in
          PrintfLine c ("250 SIZE " ++ fmt.d 40960000) in
      set_state c stateInitial
  | _ => reply c ReplyBadSyntax
  end.

(** [func (conn *connection) doMAIL()] *)
Definition doMAIL (c : connection) : connection :=
  if negb (state_eqb (conn_state c) stateInitial) then reply c ReplyBadSequence
  else
    let (path, r) := parsePath c "MAIL FROM:" in
    if negb (ReplyLine_eqb r ReplyOK) then reply c r
    else
      let c := set_mailFrom c (ParseAddress path) in
      match mailFrom c with
      | None => reply c ReplyBadSyntax
      | Some _ => reply (set_state c stateMail) ReplyOK
      end.

(** [func (conn *connection) doRCPT()]: after the syntax-error reply the
    function goes on to [*address] with a nil [address]. *)
Definition doRCPT (c : connection) : result :=
  if andb (negb (state_eqb (conn_state c) stateMail))
          (negb (state_eqb (conn_state c) stateRecipient))
  then Returns (reply c ReplyBadSequence)
  else
    let (path, r) := parsePath c "RCPT TO:" in
    if negb (ReplyLine_eqb r ReplyOK) then Returns (reply c r)
    else
      match ParseAddress path with
      | None => Panics (reply c ReplyBadSyntax)
      | Some address =>
          let r := VerifyAddress address in
          if negb (ReplyLine_eqb r ReplyOK) then Returns (reply c r)
          else
            let c := set_rcptTo c (rcptTo c ++ [address]) in
            Returns (reply (set_state c stateRecipient) ReplyOK)
      end.

(** [func (conn *connection) envelopeID(t time.Time) string] *)
Definition envelopeID (t : Instant) : string :=
  "m." ++ fmt.d (Z.of_nat t) ++ "." ++ randomSuffix t.

(** [func (conn *connection) getReceivedInfo(envelope Envelope) []byte];
    [None] when [envelope.RcptTo[0]] is out of range. *)
Definition getReceivedInfo (c : connection) (envelope : Envelope) : option string :=
  let rhost :=
    match SplitHostPort (remoteAddr c) with
    | Some h => h
    | None => remoteAddr c
    end in
  let rhost :=
    match LookupAddr rhost with
    | Some name => name ++ " [" ++ rhost ++ "]"
    | None => rhost
    end in
  let base := "Received: from " ++ ehlo c ++ " (" ++ rhost ++ ")" ++ CRLF ++ "        " in
  let with_ := "SMTP" in
  let with_ := if esmtp c then "E" ++ with_ else with_ in
  let with_ := if tls c then with_ ++ "S" else with_ in
  let base :=
    base ++ "by " ++ Name ++ " (mailpopbox) with " ++ with_
    ++ " id " ++ ID envelope ++ CRLF ++ "        " in
  match RcptTo envelope with
  | [] => None
  | first :: _ =>
      let base := base ++ "for <" ++ mail.Addr first ++ ">" ++ CRLF ++ "        " in
      let transport := "PLAINTEXT" in
      let date := FormatRFC1123Z (Received envelope) in
      Some (base ++ "(using " ++ transport ++ ");" ++ CRLF ++ "        " ++ date ++ CRLF)
  end.

(** [func (conn *connection) doDATA()] *)
Definition doDATA (c : connection) : result :=
  if negb (state_eqb (conn_state c) stateRecipient) then Returns (reply c ReplyBadSequence)
  else
    let c := writeReply c 354 "Start mail input; end with <CRLF>.<CRLF>" in
    match textproto.ReadDotBytes (tp c) with
    | (None, t) => Returns (writeReply (set_tp c t) 552 "transaction failed")
    | (Some data, t) =>
        let c := set_tp c t in
        let received := clock c in
        let c := set_clock c (S received) in
        match mailFrom c with
        | None => Panics c
        | Some from =>
            let env :=
              mkEnvelope (remoteAddr c) (ehlo c) from (rcptTo c) received
                (envelopeID received) "" in
            match getReceivedInfo c env with
            | None => Panics c
            | Some trace =>
                let env :=
                  mkEnvelope (RemoteAddr env) (EHLO env) (MailFrom env) (RcptTo env)
                    (Received env) (ID env) (trace ++ data) in
                let c := set_handed c (handed c ++ [Delivered env]) in
                match OnMessageDelivered env with
                | Some r => Returns (reply c r)
                | None => Returns (reply (set_state c stateInitial) ReplyOK)
                end
            end
        end
    end.

(** [func (conn *connection) doRSET()] *)
Definition doRSET (c : connection) : connection :=
  let c := set_state c stateInitial in
  reply (resetBuffers c) ReplyOK.

(** What one turn of the command loop leads to.  No statement of the
    loop leaves it: [break] in the [QUIT] case ends the [switch]. *)
Inductive turn :=
| Continue (c : connection)
| Panic (c : connection).

Definition handled (r : result) : turn :=
  match r with
  | Returns c => Continue c
  | Panics c => Panic c
  end.

(** The body of the [for] loop of [AcceptConnection]. *)
Definition serveLine (c : connection) : turn :=
  match textproto.ReadLine (tp c) with
  | (None, t) => Continue (writeReply (set_line (set_tp c t) "") 500 "line too long")
  | (Some l, t) =>
      let c := set_line (set_tp c t) l in
      match fmt.Sscanf 1 (line c) with
      | [cmd] =>
          let cmd := strings.ToUpper cmd in
          if String.eqb cmd "QUIT" then
            let c := writeReply c 221 "Goodbye" in
            Continue (set_tp c (textproto.Close (tp c)))
          else if String.eqb cmd "HELO" then
            let c := set_esmtp c false in
            let c := set_esmtp c true in
            Continue (doEHLO c)
          else if String.eqb cmd "EHLO" then
            let c := set_esmtp c true in
            Continue (doEHLO c)
          else if String.eqb cmd "MAIL" then Continue (doMAIL c)
          else if String.eqb cmd "RCPT" then handled (doRCPT c)
          else if String.eqb cmd "DATA" then handled (doDATA c)
          else if String.eqb cmd "RSET" then Continue (doRSET c)
          else if String.eqb cmd "VRFY" then Continue (writeReply c 252 "I'll do my best")
          else if String.eqb cmd "EXPN" then Continue (writeReply c 550 "access denied")
          else if String.eqb cmd "NOOP" then Continue (reply c ReplyOK)
          else if String.eqb cmd "HELP"
          then Continue (writeReply c 250 "https://tools.ietf.org/html/rfc5321")
          else Continue (writeReply c 500 "unrecognized command")
      | _ => Continue (reply c ReplyBadSyntax)
      end
  end.

(** The [for] loop, for at most [fuel] turns; [None] when the loop is
    still running after that many. *)
Fixpoint serve (fuel : nat) (c : connection) : option turn :=
  match fuel with
  | O => None
  | S fuel' =>
      match serveLine c with
      | Continue c' => serve fuel' c'
      | Panic c' => Some (Panic c')
      end
  end.

Definition newConnection (remote : string) (lines : list string) (now : Instant)
    : connection :=
  mkConnection (textproto.NewConn lines) remote false false stateNew "" "" None []
    [] now.

(** [func AcceptConnection(netConn net.Conn, server Server) error] *)
Definition AcceptConnection (fuel : nat) (remote local : string) (lines : list string)
    (now : Instant) : option turn :=
  let conn := newConnection remote lines now in
  let conn := writeReply conn 220 (Name ++ " ESMTP [" ++ local ++ "] (mailpopbox)") in
  serve fuel conn.

(** The connection after [n] more turns of the loop. *)
Fixpoint after (n : nat) (c : connection) : option connection :=
  match n with
  | O => Some c
  | S n' =>
      match serveLine c with
      | Continue c' => after n' c'
      | Panic _ => None
      end
  end.

End Session.

End Legacy.

(** ** Sessions a client can drive, and what stays true in them *)

(** The envelope of a hand-off. *)
Definition envelopeOf (h : handoff) : Envelope :=
  match h with
  | Delivered env => env
  | Relayed env => env
  end.

(** The shape a transaction keeps between commands: no command leaves the
    session in the Data state; a classified transaction has a sender and is
    in the Mail or Recipient state; recipients are only held in the
    Recipient state; and a classified transaction in the Recipient state
    has a recipient. *)
Definition transaction_wf (c : connection) : Prop :=
  conn_state c <> stateData
  /\ (conn_delivery c <> deliverUnknown ->
      mailFrom c <> None /\ (conn_state c = stateMail \/ conn_state c = stateRecipient))
  /\ (rcptTo c <> [] -> conn_state c = stateRecipient)
  /\ (conn_state c = stateRecipient -> conn_delivery c <> deliverUnknown -> rcptTo c <> []).

(** Every envelope handed to the server so far names a recipient. *)
Definition handed_wf (c : connection) : Prop :=
  Forall (fun h => RcptTo (envelopeOf h) <> []) (handed c).

Section Reachable.

Context {server : Server} {rt : Runtime}.

(** The connection [AcceptConnection] enters its loop with: the greeting
    is sent. *)
Definition accepted (remote local : string) (lines : list string)
    (hs : list (option crypto_tls.ConnectionState)) (now : Instant) : connection :=
  writeReply (newConnection remote lines hs now) 220
    (Name ++ " ESMTP [" ++ local ++ "] (mailpopbox)").

(** The connections the loop of [AcceptConnection] passes through. *)
Definition reachable (c : connection) : Prop :=
  exists remote local lines hs now n,
    after n (accepted remote local lines hs now) = Some c.

End Reachable.

(** ** A server and a runtime to run sessions with *)

Module Fixture.

(** The value of a character of the base64 alphabet. *)
Definition b64 (a : ascii) : option N :=
  let n := N_of_ascii a in
  if andb (65 <=? n)%N (n <=? 90)%N then Some (n - 65)%N
  else if andb (97 <=? n)%N (n <=? 122)%N then Some (n - 71)%N
  else if andb (48 <=? n)%N (n <=? 57)%N then Some (n + 4)%N
  else if (n =? 43)%N then Some 62%N
  else if (n =? 47)%N then Some 63%N
  else None.

Definition byteOf (n : N) : ascii := ascii_of_N (n mod 256).

(** [base64.StdEncoding.DecodeString] on padded input. *)
Fixpoint decodeBase64 (s : string) : option string :=
  match s with
  | EmptyString => Some EmptyString
  | String a (String b (String c (String d r))) =>
      match b64 a, b64 b with
      | Some x, Some y =>
          let b0 := byteOf (x * 4 + y / 16) in
          if Ascii.eqb c "=" then
            if andb (Ascii.eqb d "=") (String.eqb r "") then Some (String b0 "") else None
          else
            match b64 c with
            | None => None
            | Some z =>
                let b1 := byteOf ((y mod 16) * 16 + z / 4) in
                if Ascii.eqb d "=" then
                  if String.eqb r "" then Some (String b0 (String b1 "")) else None
                else
                  match b64 d, decodeBase64 r with
                  | Some w, Some rest =>
                      Some (String b0 (String b1 (String (byteOf ((z mod 4) * 64 + w)) rest)))
                  | _, _ => None
                  end
            end
      | _, _ => None
      end
  | _ => None
  end.

Fixpoint dropSpaces (s : string) : string :=
  match s with
  | String " " r => dropSpaces r
  | _ => s
  end.

Fixpoint noSpace (s : string) : bool :=
  match s with
  | EmptyString => true
  | String a r => andb (negb (fmt.isSpace a)) (noSpace r)
  end.

(** [mail.ParseAddress] on the one form the sessions below use: an
    address in angle brackets, without a display name. *)
Definition parseAngleAddr (s : string) : option mail.Address :=
  match dropSpaces s with
  | String "<" r =>
      let close := strings.Index r ">" in
      let spec := strings.sliceTo r close in
      let at_ := strings.LastIndex spec "@" in
      if orb (close =? -1) (negb (String.eqb (strings.sliceFrom r (close + 1)) "")) then None
      else if orb (at_ <=? 0) (at_ + 1 =? strings.len spec) then None
      else if noSpace spec then Some (mail.mkAddress "" spec) else None
  | _ => None
  end.

(** Modelled from the spec: the send-as pattern is declared outside
    [conn.go]; the spec shows the tag as [[send-as:alice]], a local part
    between [[send-as:] and the closing bracket. *)
Definition findSendAsTag (s : string) : option (Z * Z * Z * Z) :=
  let m0 := strings.Index s "[send-as:" in
  if m0 =? -1 then None
  else
    let close := strings.Index (strings.sliceFrom s (m0 + 9)) "]" in
    if close <=? 0 then None
    else Some (m0, m0 + 9 + close + 1, m0 + 9, m0 + 9 + close).

(** Modelled from the spec: the canonical replies are declared outside
    [conn.go]; the spec gives the class of each (an OK reply, an auth-OK
    reply, a 501-class syntax error, [503 bad sequence]). *)
#[export] Instance runtime : Runtime := {
  ReplyOK := mkReply 250 "OK";
  ReplyAuthOK := mkReply 235 "auth success";
  ReplyBadSyntax := mkReply 501 "syntax error";
  ReplyBadSequence := mkReply 503 "bad sequence";
  SendAsSubject_FindSubmatchIndex := findSendAsTag;
  lookupRemoteHost := fun remote => remote;
  generateEnvelopeId := fun prefix t => prefix ++ "." ++ fmt.d (Z.of_nat t);
  ParseAddress := parseAngleAddr;
  DecodeString := decodeBase64;
  FormatRFC1123Z := fun t => "T" ++ fmt.d (Z.of_nat t)
}.

Definition mailboxes : list string :=
  ["alice@example.com"; "mailbox@example.com"; "full@example.com"].

Definition unavailable : ReplyLine := mkReply 550 "mailbox unavailable".

Definition mailboxFull : ReplyLine := mkReply 552 "mailbox full".

(** A server for [example.com] with three mailboxes, one of which
    refuses every delivery, and one user who may relay. *)
#[export] Instance server : Server := {
  Name := "mx.example.com";
  TLSConfig := Some crypto_tls.config;
  VerifyAddress := fun a =>
    if existsb (String.eqb (mail.Addr a)) mailboxes then ReplyOK else unavailable;
  Authenticate := fun authz authcid passwd =>
    andb (String.eqb authcid "alice@example.com") (String.eqb passwd "hunter2");
  DeliverMessage := fun env =>
    if existsb (fun a => String.eqb (mail.Addr a) "full@example.com") (RcptTo env)
    then Some mailboxFull else None
}.

#[export] Instance legacyServer : Legacy.Server := {
  Legacy.Name := "mx.example.com";
  Legacy.TLSConfig := None;
  Legacy.VerifyAddress := fun a =>
    if existsb (String.eqb (mail.Addr a)) mailboxes then ReplyOK else unavailable;
  Legacy.OnMessageDelivered := fun env => None
}.

#[export] Instance legacyNet : Legacy.Net := {
  Legacy.SplitHostPort := fun a => None;
  Legacy.LookupAddr := fun h => None;
  Legacy.randomSuffix := fun t => "00000000"
}.

Definition tls13 : crypto_tls.ConnectionState :=
  crypto_tls.mkConnectionState 0x0304 0x1301 "mx.example.com".

Definition tls12 : crypto_tls.ConnectionState :=
  crypto_tls.mkConnectionState 0x0303 0xc02f "".

(** The connection [AcceptConnection] enters its loop with. *)
Definition greeted (lines : list string) (hs : list (option crypto_tls.ConnectionState))
    : connection :=
  writeReply (newConnection "192.0.2.7:4025" lines hs 0%nat) 220
    (Name ++ " ESMTP [192.0.2.1:25] (mailpopbox)").

(** A session with [conn.go]: the connection after [n] turns of the loop. *)
Definition session (lines : list string) (hs : list (option crypto_tls.ConnectionState))
    (n : nat) : option connection :=
  after n (greeted lines hs).

(** The same for the earlier revision. *)
Definition legacyGreeted (lines : list string) : Legacy.connection :=
  Legacy.writeReply (Legacy.newConnection "192.0.2.7:4025" lines 0%nat) 220
    (Legacy.Name ++ " ESMTP [192.0.2.1:25] (mailpopbox)").

Definition legacySession (lines : list string) (n : nat) : option Legacy.connection :=
  Legacy.after n (legacyGreeted lines).

(** The connection in which the handler of the next line runs: the loop
    has read the line and stored it. *)
Definition reading (c : option connection) : connection :=
  match c with
  | Some c =>
      match textproto.ReadLine (tp c) with
      | (Some l, t) => set_line (set_tp c t) l
      | (None, _) => c
      end
  | None => greeted [] []
  end.

(** The SASL PLAIN response of [alice@example.com], empty authorization
    identity. *)
Definition alice : string := "AGFsaWNlQGV4YW1wbGUuY29tAGh1bnRlcjI=".

(** The lines that take a session to an authenticated Initial state. *)
Definition login : list string :=
  ["EHLO client.example"; "STARTTLS"; "EHLO client.example"; "AUTH PLAIN " ++ alice].

(** A relayed message without a [Subject:] header whose first header
    carries a send-as tag. *)
Definition untitled : list string :=
  login ++ ["MAIL FROM:<alice@example.com>"; "RCPT TO:<stranger@elsewhere.org>"; "DATA";
            "X-Note: [send-as:bob]"; "From: Alice <alice@example.com>"; ""; "hello"; "."].

(** A transaction interrupted by an EHLO without a domain, then DATA. *)
Definition interrupted : list string :=
  ["EHLO client.example"; "MAIL FROM:<x@remote.org>"; "RCPT TO:<mailbox@example.com>";
   "EHLO"; "DATA"; "hello"; "."].

(** A transaction opened with HELO. *)
Definition plain : list string :=
  ["HELO client.example"; "MAIL FROM:<x@remote.org>"; "RCPT TO:<mailbox@example.com>";
   "DATA"; "Subject: hi"; ""; "hello"; "."].

(** A transaction for the mailbox that refuses deliveries. *)
Definition refused : list string :=
  ["EHLO client.example"; "MAIL FROM:<x@remote.org>"; "RCPT TO:<full@example.com>";
   "DATA"; "hello"; "."].

(** The connection a run has reached. *)
Definition running (c : option connection) : connection :=
  match c with
  | Some c => c
  | None => greeted [] []
  end.

(** The same for the earlier revision, and the connection in which its
    handler of the next line runs. *)
Definition legacyRunning (c : option Legacy.connection) : Legacy.connection :=
  match c with
  | Some c => c
  | None => legacyGreeted []
  end.

Definition legacyReading (c : option Legacy.connection) : Legacy.connection :=
  match textproto.ReadLine (Legacy.tp (legacyRunning c)) with
  | (Some l, t) => Legacy.set_line (Legacy.set_tp (legacyRunning c) t) l
  | (None, _) => legacyRunning c
  end.

(** What a handler of the earlier revision leaves, returning or not. *)
Definition legacyLeft (r : Legacy.result) : Legacy.connection :=
  match r with
  | Legacy.Returns c => c
  | Legacy.Panics c => c
  end.

(** A transaction for a known mailbox, its body not ended. *)
Definition unfinished : list string :=
  ["EHLO client.example"; "MAIL FROM:<x@remote.org>"; "RCPT TO:<mailbox@example.com>";
   "DATA"; "hello"].

(** Two transactions one after the other. *)
Definition twice : list string :=
  ["EHLO client.example"; "MAIL FROM:<x@remote.org>"; "RCPT TO:<mailbox@example.com>";
   "DATA"; "hello"; "."; "MAIL FROM:<y@remote.org>"; "RCPT TO:<alice@example.com>"].

End Fixture.

(** ** Properties of the helpers *)

(** Runs the left-hand side of an equation and compares the result with
    the right-hand side, which may still hold the state to be found. *)
Ltac run :=
  lazymatch goal with
  | |- ?l = _ =>
      let v := eval vm_compute in l in
      transitivity v; [vm_compute; reflexivity | reflexivity]
  end.

(** Settles the parts of a conjunction from left to right. *)
Ltac runs := repeat (split; [run|]); try run.

(** Splits a conjunction into its parts. *)
Ltac conjs := repeat match goal with |- _ /\ _ => split end.

Example ToUpper_ex : strings.ToUpper "Mail From:" = "MAIL FROM:".
Proof. reflexivity. Qed.

Example Index_ex :
  strings.Index " <a@b.c> SIZE=3" ">" = 7 /\ strings.Index "abc" ">" = -1.
Proof. split; reflexivity. Qed.

Example SplitAfter_ex :
  strings.SplitAfter ("A: 1" ++ String "010" "B: 2") "010"
  = ["A: 1" ++ String "010" ""; "B: 2"].
Proof. reflexivity. Qed.

Example Fields_ex : fmt.Fields "  AUTH   PLAIN " = ["AUTH"; "PLAIN"].
Proof. reflexivity. Qed.

Example Sscanf_ex :
  fmt.Sscanf 2 "EHLO" = ["EHLO"] /\ fmt.Sscanf 1 "   " = []
  /\ fmt.Sscanf 3 "AUTH PLAIN a b" = ["AUTH"; "PLAIN"; "a"].
Proof. repeat split; reflexivity. Qed.

Example d_ex : fmt.d 250 = "250" /\ fmt.x 772 = "304".
Proof. split; reflexivity. Qed.

Example DomainForAddressString_ex :
  DomainForAddressString "alice@example.com" = "example.com"
  /\ DomainForAddressString "" = "" /\ DomainForAddressString "admin" = "".
Proof. repeat split; reflexivity. Qed.

Example DecodeString_ex :
  Fixture.decodeBase64 "AGFsaWNlQGV4YW1wbGUuY29tAGh1bnRlcjI="
  = Some (String "000" "alice@example.com" ++ String "000" "hunter2")
  /\ Fixture.decodeBase64 "AGE=" = Some (String "000" "a")
  /\ Fixture.decodeBase64 "A" = None.
Proof. repeat split; reflexivity. Qed.

Example ParseAddress_ex :
  Fixture.parseAngleAddr " <x@remote.org>" = Some (mail.mkAddress "" "x@remote.org")
  /\ Fixture.parseAngleAddr "<nobody>" = None /\ Fixture.parseAngleAddr "<@b>" = None
  /\ Fixture.parseAngleAddr "<a@>" = None.
Proof. repeat split; reflexivity. Qed.

Lemma ReplyLine_eqb_eq (a b : ReplyLine) : ReplyLine_eqb a b = true <-> a = b.
Proof.
  destruct a as [ca ma], b as [cb mb]; unfold ReplyLine_eqb; simpl.
  rewrite andb_true_iff, Z.eqb_eq, String.eqb_eq.
  split.
  - intros [-> ->]; reflexivity.
  - intros E; injection E; auto.
Qed.

Lemma ReplyLine_eqb_refl (a : ReplyLine) : ReplyLine_eqb a a = true.
Proof. apply ReplyLine_eqb_eq; reflexivity. Qed.

Lemma ReplyLine_eqb_neq (a b : ReplyLine) : a <> b -> ReplyLine_eqb a b = false.
Proof.
  intros N; destruct (ReplyLine_eqb a b) eqn:E; [|reflexivity].
  apply ReplyLine_eqb_eq in E; contradiction.
Qed.

Lemma eqb_neq_false (a b : string) : a <> b -> String.eqb a b = false.
Proof. intros N; apply String.eqb_neq; exact N. Qed.

(** The domain of the empty identity is empty. *)
Lemma DomainForAddressString_empty : DomainForAddressString "" = "".
Proof. reflexivity. Qed.

(** ** The MAIL and RCPT handlers *)

Section Handlers.

Context {server : Server} {rt : Runtime}.

Lemma writeReply_wire (c : connection) (code : Z) (msg : string) :
  writeReply c code msg = set_tp c (textproto.PrintfLine (tp c) (wire (mkReply code msg))).
Proof. unfold writeReply, wire; cbn [Code Message]. destruct (0 <? strings.len msg); reflexivity. Qed.

Lemma reply_wire (c : connection) (r : ReplyLine) :
  reply c r = set_tp c (textproto.PrintfLine (tp c) (wire r)).
Proof. unfold reply. rewrite writeReply_wire. destruct r; reflexivity. Qed.

(** C1.  A MAIL FROM command that parses in the Initial state, with a
    sender whose address has a domain (as every address [mail.ParseAddress]
    returns has).  If [VerifyAddress] reports the sender as served here, the
    transaction becomes Outbound when the session is authenticated and the
    sender's domain is the domain of the authenticated identity, and is
    answered [550 not authenticated] with the classification and the state
    left as they were otherwise.  If [VerifyAddress] does not, the
    transaction becomes Inbound whatever the authentication state.  In both
    accepting cases the state becomes Mail and the reply is the OK reply. *)
Theorem doMAIL_classifies (c : connection) (path : string) (from : mail.Address) :
  conn_state c = stateInitial ->
  parsePath c "MAIL FROM:" = (path, ReplyOK) ->
  ParseAddress path = Some from ->
  DomainForAddress from <> "" ->
  (VerifyAddress from = ReplyOK ->
     (authenticated c /\ DomainForAddress from = DomainForAddressString (authc c) ->
        conn_delivery (doMAIL c) = deliverOutbound
        /\ conn_state (doMAIL c) = stateMail
        /\ tp (doMAIL c) = tp (reply c ReplyOK))
     /\
     (~ (authenticated c /\ DomainForAddress from = DomainForAddressString (authc c)) ->
        tp (doMAIL c) = textproto.PrintfLine (tp c) "550 not authenticated"
        /\ conn_delivery (doMAIL c) = conn_delivery c
        /\ conn_state (doMAIL c) = conn_state c))
  /\
  (VerifyAddress from <> ReplyOK ->
     conn_delivery (doMAIL c) = deliverInbound
     /\ conn_state (doMAIL c) = stateMail
     /\ tp (doMAIL c) = tp (reply c ReplyOK)).
Proof.
  intros Hst Hpath Hparse Hdom.
  unfold doMAIL. rewrite Hst, Hpath. cbn [state_eqb negb].
  rewrite ReplyLine_eqb_refl. cbn [negb mailFrom set_mailFrom]. rewrite Hparse.
  split.
  - intros Hok. rewrite Hok, ReplyLine_eqb_refl. split.
    + intros [_ Hsame].
      rewrite Hsame, String.eqb_refl. cbn [negb].
      rewrite !reply_wire. repeat split.
    + intros Hnot.
      assert (Hne : DomainForAddress from <> DomainForAddressString (authc c)).
      { intros Hsame. apply Hnot. split; [|exact Hsame].
        unfold authenticated. intros Hnoauth.
        rewrite Hnoauth, DomainForAddressString_empty in Hsame. contradiction. }
      cbn [authc set_mailFrom].
      rewrite (eqb_neq_false _ _ Hne). cbn [negb].
      rewrite writeReply_wire. repeat split; exact Hst.
  - intros Hrej. rewrite (ReplyLine_eqb_neq _ _ Hrej).
    rewrite !reply_wire. repeat split.
Qed.

(** C2, as the code has it.  A RCPT TO command with an address that
    parses, in the Mail or Recipient state.  While the transaction is
    Inbound, a recipient for which [VerifyAddress] returns another reply
    than the OK reply is not appended, the state stays, and that reply is
    the answer; a recipient [VerifyAddress] accepts is appended.  While the
    transaction is Outbound, the recipient is appended and the command
    succeeds whatever [VerifyAddress] returns. *)
Theorem doRCPT_verifies_inbound_only (c : connection) (path : string)
    (address : mail.Address) :
  conn_state c = stateMail \/ conn_state c = stateRecipient ->
  parsePath c "RCPT TO:" = (path, ReplyOK) ->
  ParseAddress path = Some address ->
  (conn_delivery c = deliverInbound -> VerifyAddress address <> ReplyOK ->
     rcptTo (doRCPT c) = rcptTo c
     /\ conn_state (doRCPT c) = conn_state c
     /\ tp (doRCPT c) = tp (reply c (VerifyAddress address)))
  /\
  (conn_delivery c = deliverInbound -> VerifyAddress address = ReplyOK ->
     rcptTo (doRCPT c) = (rcptTo c ++ [address])%list
     /\ conn_state (doRCPT c) = stateRecipient
     /\ tp (doRCPT c) = tp (reply c ReplyOK))
  /\
  (conn_delivery c = deliverOutbound ->
     rcptTo (doRCPT c) = (rcptTo c ++ [address])%list
     /\ conn_state (doRCPT c) = stateRecipient
     /\ tp (doRCPT c) = tp (reply c ReplyOK)).
Proof.
  intros Hst Hpath Hparse.
  assert (Hguard : andb (negb (state_eqb (conn_state c) stateMail))
                        (negb (state_eqb (conn_state c) stateRecipient)) = false)
    by (destruct Hst as [-> | ->]; reflexivity).
  unfold doRCPT. rewrite Hguard, Hpath, ReplyLine_eqb_refl, Hparse. cbn [negb].
  split; [|split].
  - intros Hin Hv. rewrite Hin, (ReplyLine_eqb_neq _ _ Hv). cbn [delivery_eqb andb negb].
    rewrite !reply_wire. repeat split.
  - intros Hin Hv. rewrite Hin, Hv, ReplyLine_eqb_refl. cbn [delivery_eqb andb negb].
    rewrite !reply_wire. repeat split.
  - intros Hout. rewrite Hout. cbn [delivery_eqb]. rewrite andb_false_r.
    rewrite !reply_wire. repeat split.
Qed.

(** The envelope depends on the connection only through the fields that
    reading the body and the clock leave alone. *)
Lemma assemble_after_read (c : connection) (t : textproto.Conn) (code : Z) (msg : string)
    (from : mail.Address) (received : Instant) (data : string) :
  assemble (set_clock (set_tp (writeReply c code msg) t) (S (clock c))) from received data
  = assemble c from received data.
Proof. rewrite writeReply_wire. destruct c. reflexivity. Qed.

(** C6.  A DATA command in the Recipient state of an Inbound transaction
    whose body is read and whose envelope [DeliverMessage] answers with a
    reply: the handler returns, that reply is what is sent after the 354
    prompt, code and message as they are, and the state is still Recipient
    with the sender, the recipients and the classification as they were. *)
Theorem doDATA_forwards_rejection (c : connection) (from : mail.Address)
    (data : string) (t : textproto.Conn) (r : ReplyLine) :
  conn_state c = stateRecipient ->
  conn_delivery c = deliverInbound ->
  mailFrom c = Some from ->
  textproto.ReadDotBytes
    (tp (writeReply c 354 "Start mail input; end with <CRLF>.<CRLF>")) = (Some data, t) ->
  DeliverMessage (assemble c from (clock c) data) = Some r ->
  exists c',
    doDATA c = Returns c'
    /\ tp c' = textproto.PrintfLine t (wire r)
    /\ conn_state c' = stateRecipient
    /\ mailFrom c' = mailFrom c
    /\ rcptTo c' = rcptTo c
    /\ conn_delivery c' = conn_delivery c.
Proof.
  intros Hst Hin Hfrom Hread Hrej.
  unfold doDATA. rewrite Hst. cbn [state_eqb negb]. rewrite Hread.
  cbv zeta.
  replace (mailFrom (set_clock (set_tp (writeReply c 354 _) t) _)) with (mailFrom c)
    by (rewrite writeReply_wire; reflexivity).
  replace (conn_delivery (set_clock (set_tp (writeReply c 354 _) t) _)) with (conn_delivery c)
    by (rewrite writeReply_wire; reflexivity).
  replace (clock (set_tp (writeReply c 354 _) t)) with (clock c)
    by (rewrite writeReply_wire; reflexivity).
  rewrite Hfrom, Hin, assemble_after_read, Hrej.
  eexists. split; [reflexivity|].
  rewrite reply_wire, writeReply_wire. cbn.
  repeat split; auto.
Qed.

(** The tokens [fmt.Fields] returns are not empty. *)
Lemma fieldsFrom_nonempty (s cur : string) :
  Forall (fun tok => tok <> "") (fmt.fieldsFrom s cur).
Proof.
  revert cur. induction s as [|a r IH]; intros cur; cbn [fmt.fieldsFrom].
  - destruct (String.eqb_spec cur ""); auto.
  - destruct (fmt.isSpace a); [|apply IH].
    destruct (String.eqb_spec cur ""); [apply IH|].
    constructor; [assumption|apply IH].
Qed.

(** C7, as the code has it.  An AUTH command where AUTH is legal (Initial
    state, TLS active, not yet authenticated) with PLAIN as its second
    token.  With a third token, that token is the payload that is decoded
    and no further line is read.  With no third token and a line that ends
    in a space, the prompt [334] is sent and exactly the next line is read
    and decoded as the payload.  With no third token and a line that does
    not end in a space, the answer is the syntax-error reply. *)
Theorem doAUTH_accepts_both_forms (c : connection) :
  conn_state c = stateInitial ->
  tls c <> None ->
  authc c = "" ->
  (forall cmd payload more,
     fmt.Fields (line c) = cmd :: "PLAIN" :: payload :: more ->
     doAUTH c = authenticate c payload)
  /\
  (forall cmd l rest,
     fmt.Fields (line c) = [cmd; "PLAIN"] ->
     strings.lastByte (line c) = Some " "%char ->
     textproto.closed (tp c) = false ->
     textproto.pending (tp c) = l :: rest ->
     doAUTH c
     = authenticate
         (set_tp c (textproto.mkConn rest (textproto.sent (tp c) ++ ["334  "]) false)) l)
  /\
  (forall cmd,
     fmt.Fields (line c) = [cmd; "PLAIN"] ->
     strings.lastByte (line c) <> Some " "%char ->
     doAUTH c = reply c ReplyBadSyntax).
Proof.
  intros Hst Htls Hauth.
  assert (Hlegal : orb (negb (state_eqb (conn_state c) stateInitial))
                       (match tls c with None => true | Some _ => false end) = false).
  { rewrite Hst. destruct (tls c); [reflexivity|contradiction]. }
  split; [|split].
  - intros cmd payload more Hf.
    assert (Hne : payload <> "").
    { pose proof (fieldsFrom_nonempty (line c) "") as Hall.
      fold (fmt.Fields (line c)) in Hall. rewrite Hf in Hall.
      apply Forall_inv_tail, Forall_inv_tail, Forall_inv in Hall. exact Hall. }
    unfold doAUTH, fmt.Sscanf. rewrite Hlegal, Hauth, Hf. cbn.
    rewrite (eqb_neq_false _ _ Hne). reflexivity.
  - intros cmd l rest Hf Hlast Hopen Hpend.
    unfold doAUTH, fmt.Sscanf. rewrite Hlegal, Hauth, Hf, Hlast. cbn.
    unfold textproto.ReadLine, textproto.PrintfLine. rewrite Hopen. cbn.
    rewrite Hpend. reflexivity.
  - intros cmd Hf Hlast.
    unfold doAUTH, fmt.Sscanf. rewrite Hlegal, Hauth, Hf. cbn.
    destruct (strings.lastByte (line c)) as [b|]; [|reflexivity].
    destruct (Ascii.eqb_spec b " "); [subst; contradiction|reflexivity].
Qed.

(** What the payload leads to: credentials the server accepts are
    recorded and answered with the auth-OK reply. *)
Lemma authenticate_accepted (c : connection) (payload bytes authz authcid passwd : string) :
  DecodeString payload = Some bytes ->
  strings.Split bytes "000" = [authz; authcid; passwd] ->
  Authenticate authz authcid passwd = true ->
  authenticate c payload = reply (set_authc c authcid) ReplyAuthOK.
Proof.
  intros Hd Hs Ha. unfold authenticate. rewrite Hd, Hs, Ha. reflexivity.
Qed.

(** A payload that is not base64 is a syntax error. *)
Lemma authenticate_undecodable (c : connection) (payload : string) :
  DecodeString payload = None -> authenticate c payload = reply c ReplyBadSyntax.
Proof. intros Hd. unfold authenticate. rewrite Hd. reflexivity. Qed.

(** In [conn.go], QUIT ends the loop: one reply, the output closed, and
    the lines that follow left unread, whatever fuel is left. *)
Lemma serve_QUIT_returns (c : connection) (l cmd : string) (rest : list string) (fuel : nat) :
  textproto.closed (tp c) = false ->
  textproto.pending (tp c) = l :: rest ->
  fmt.Sscanf 1 l = [cmd] ->
  strings.ToUpper cmd = "QUIT" ->
  serve (S fuel) c
  = Some (Return (set_tp (set_line c l)
                    (textproto.mkConn rest (textproto.sent (tp c) ++ ["221 Goodbye"]) true))).
Proof.
  intros Hopen Hpend Hscan Hquit.
  cbn [serve]. unfold serveLine, textproto.ReadLine. rewrite Hopen, Hpend.
  cbn [line set_line]. rewrite Hscan, Hquit. cbn. reflexivity.
Qed.

(** The guards of [handleSendAs] against a missing header compare with -1
    positions that start at 0 and only ever take the index of a header:
    they never hold. *)
Lemma findHeaders_nonnegative (headers : list string) (i fromIdx subjectIdx : Z) :
  0 <= i -> 0 <= fromIdx -> 0 <= subjectIdx ->
  0 <= fst (findHeaders headers i fromIdx subjectIdx)
  /\ 0 <= snd (findHeaders headers i fromIdx subjectIdx).
Proof.
  revert i fromIdx subjectIdx.
  induction headers as [|h r IH]; intros i f s Hi Hf Hs; cbn [findHeaders].
  - split; assumption.
  - destruct (strings.HasPrefix h "From:"); [apply IH; lia|].
    destruct (strings.HasPrefix h "Subject:"); apply IH; lia.
Qed.

(** [doEHLO] does not touch [esmtp]. *)
Lemma doEHLO_esmtp (c : connection) : esmtp (doEHLO c) = esmtp c.
Proof.
  unfold doEHLO.
  destruct (fmt.Sscanf 2 _) as [|x1 [|x2 [|x3 xs]]]; rewrite ?reply_wire; try reflexivity.
  destruct (String.eqb x1 "HELO"); rewrite ?writeReply_wire; [reflexivity|].
  unfold PrintfLine. destruct c as [? ? ? ? tls0 ? ? ? ? ? ? ? ? ? ?].
  destruct TLSConfig, tls0; reflexivity.
Qed.

(** Whatever the token's case, HELO leaves the loop with [esmtp] set: the
    assignment of [false] falls through into the assignment of [true]. *)
Lemma serveLine_HELO_sets_esmtp (c : connection) (l cmd : string) (rest : list string) :
  textproto.closed (tp c) = false ->
  textproto.pending (tp c) = l :: rest ->
  fmt.Sscanf 1 l = [cmd] ->
  strings.ToUpper cmd = "HELO" ->
  exists c', serveLine c = Continue c' /\ esmtp c' = true.
Proof.
  intros Hopen Hpend Hscan Hcmd.
  unfold serveLine, textproto.ReadLine. rewrite Hopen, Hpend.
  cbn [line set_line]. rewrite Hscan, Hcmd. cbn [String.eqb Ascii.eqb Bool.eqb].
  eexists. split; [reflexivity|].
  rewrite doEHLO_esmtp. reflexivity.
Qed.

(** An EHLO or HELO line without a second token: the transaction is
    emptied before the line is rejected, and the state is not set. *)
Lemma doEHLO_rejected_resets (c : connection) (cmd : string) :
  fmt.Sscanf 2 (line c) = [cmd] ->
  doEHLO c = reply (resetBuffers c) ReplyBadSyntax
  /\ conn_state (doEHLO c) = conn_state c
  /\ mailFrom (doEHLO c) = None
  /\ rcptTo (doEHLO c) = []
  /\ conn_delivery (doEHLO c) = deliverUnknown.
Proof.
  intros Hscan. unfold doEHLO.
  replace (line (resetBuffers c)) with (line c) by reflexivity.
  rewrite Hscan, reply_wire. repeat split.
Qed.

(** X18.  In [conn.go] a RCPT TO line whose address does not parse is answered
    with the syntax-error reply and changes nothing else. *)
Lemma doRCPT_unparsable (c : connection) (path : string) :
  conn_state c = stateMail \/ conn_state c = stateRecipient ->
  parsePath c "RCPT TO:" = (path, ReplyOK) ->
  ParseAddress path = None ->
  doRCPT c = set_tp c (textproto.PrintfLine (tp c) (wire ReplyBadSyntax)).
Proof.
  intros Hst Hpath Hparse. unfold doRCPT.
  replace (andb _ _) with false by (destruct Hst as [-> | ->]; reflexivity).
  rewrite Hpath, ReplyLine_eqb_refl, Hparse. cbn [negb].
  apply reply_wire.
Qed.

(** Without a [Subject:] header the position of the subject stays where
    it started. *)
Lemma findHeaders_no_Subject (headers : list string) (i fromIdx subjectIdx : Z) :
  Forall (fun h => strings.HasPrefix h "Subject:" = false) headers ->
  snd (findHeaders headers i fromIdx subjectIdx) = subjectIdx.
Proof.
  intros Hno. revert i fromIdx.
  induction Hno as [|h r Hh _ IH]; intros i f; cbn [findHeaders]; [reflexivity|].
  rewrite Hh. destruct (strings.HasPrefix h "From:"); apply IH.
Qed.

(** A relayed message with a header block and no [Subject:] header is
    rewritten all the same whenever the send-as pattern matches its first
    header line: the envelope sender becomes the send-as address. *)
Lemma handleSendAs_without_Subject (c : connection) (env : Envelope) (m0 m1 m2 m3 : Z) :
  let headerIdx := strings.Index (Data env) (LF ++ LF) in
  let headers := strings.SplitAfter (strings.sliceTo (Data env) headerIdx) "010" in
  conn_delivery c = deliverOutbound ->
  headerIdx <> -1 ->
  Forall (fun h => strings.HasPrefix h "Subject:" = false) headers ->
  SendAsSubject_FindSubmatchIndex (nth 0 headers "") = Some (m0, m1, m2, m3) ->
  mail.Addr (MailFrom (handleSendAs c env))
  = strings.slice (nth 0 headers "") m2 m3 ++ "@" ++ DomainForAddressString (authc c).
Proof.
  intros headerIdx headers Hout Hidx Hno Hmatch.
  unfold handleSendAs. rewrite Hout. cbn [delivery_eqb negb].
  change (strings.Index (Data env) (String "010" (String "010" ""))) with headerIdx.
  destruct (Z.eqb_spec headerIdx (-1)) as [E|_]; [contradiction|].
  fold headers.
  pose proof (findHeaders_no_Subject headers 0 0 0 Hno) as Hsub.
  pose proof (findHeaders_nonnegative headers 0 0 0
                ltac:(lia) ltac:(lia) ltac:(lia)) as [Hfrom _].
  destruct (findHeaders headers 0 0 0) as [fromIdx subjectIdx].
  cbn [fst snd] in *. subst subjectIdx.
  cbn [Z.eqb].
  destruct (Z.eqb_spec fromIdx (-1)) as [E|_]; [lia|].
  change (Z.to_nat 0) with 0%nat. rewrite Hmatch. reflexivity.
Qed.

End Handlers.

(** ** What every turn of the loop keeps *)

(** Splits a handler into its branches: every test and every [match] on
    the way is decided one way or the other. *)
Ltac branches :=
  repeat (cbn;
          match goal with
          | |- context [if ?b then _ else _] => destruct b eqn:?
          | |- context [match ?x with _ => _ end] => destruct x eqn:?
          end);
  cbn.

Section Invariants.

Context {server : Server} {rt : Runtime}.

Lemma set_esmtp_twice (c : connection) (a b : bool) :
  set_esmtp (set_esmtp c a) b = set_esmtp c b.
Proof. destruct c; reflexivity. Qed.

(** A property that reading a line and each handler keep is kept by a
    turn of the loop. *)
Lemma serveLine_preserves (P : connection -> Prop) :
  (forall c t l, P c -> P (set_line (set_tp c t) l)) ->
  (forall c, P c -> P (set_esmtp c true)) ->
  (forall c code msg, P c -> P (writeReply c code msg)) ->
  (forall c, P c -> P (doEHLO c)) ->
  (forall c, P c -> P (doSTARTTLS c)) ->
  (forall c, P c -> P (doAUTH c)) ->
  (forall c, P c -> P (doMAIL c)) ->
  (forall c, P c -> P (doRCPT c)) ->
  (forall c c', P c -> doDATA c = Returns c' -> P c') ->
  (forall c, P c -> P (doRSET c)) ->
  forall c c', P c -> serveLine c = Continue c' -> P c'.
Proof.
  intros Hread Hesmtp Hreply Hehlo Htls Hauth Hmail Hrcpt Hdata Hrset c c' HP Hturn.
  unfold serveLine in Hturn.
  destruct (textproto.ReadLine (tp c)) as [[l|] t]; [|discriminate].
  cbv zeta in Hturn.
  specialize (Hread c t l HP). set (c0 := set_line (set_tp c t) l) in *.
  destruct (fmt.Sscanf 1 (line c0)) as [|cmd [|cmd2 more]];
    try (injection Hturn as <-; apply Hreply; assumption).
  repeat match type of Hturn with
         | (if ?b then _ else _) = _ => destruct b
         end;
    try discriminate;
    try (injection Hturn as <-).
  - rewrite set_esmtp_twice. auto.
  - auto.
  - auto.
  - auto.
  - auto.
  - auto.
  - unfold handled in Hturn. destruct (doDATA c0) as [c1|c1] eqn:Hd; [|discriminate].
    injection Hturn as <-. exact (Hdata c0 c1 Hread Hd).
  - auto.
  - auto.
  - auto.
  - apply Hreply; assumption.
  - auto.
  - auto.
Qed.

(** What a turn keeps, any number of turns keep. *)
Lemma after_preserves (P : connection -> Prop) :
  (forall c c', P c -> serveLine c = Continue c' -> P c') ->
  forall n c c', P c -> after n c = Some c' -> P c'.
Proof.
  intros Hstep n. induction n as [|n IH]; intros c c' HP Hafter; cbn [after] in Hafter.
  - injection Hafter as <-. exact HP.
  - destruct (serveLine c) as [c1| |] eqn:Hturn; try discriminate.
    eapply IH; [|exact Hafter]. eapply Hstep; eauto.
Qed.

End Invariants.

Section Frames.

Context {server : Server} {rt : Runtime}.

(** The fields that belong to the connection rather than to a transaction
    are out of reach of the transaction handlers and of the replies. *)
Lemma writeReply_frame (c : connection) (code : Z) (msg : string) :
  tls (writeReply c code msg) = tls c
  /\ authc (writeReply c code msg) = authc c
  /\ esmtp (writeReply c code msg) = esmtp c.
Proof. rewrite writeReply_wire. repeat split. Qed.

Lemma doEHLO_frame (c : connection) :
  tls (doEHLO c) = tls c /\ authc (doEHLO c) = authc c /\ esmtp (doEHLO c) = esmtp c.
Proof.
  destruct c. unfold doEHLO, fmt.Sscanf, reply, writeReply, PrintfLine.
  branches; repeat split.
Qed.

Lemma doMAIL_frame (c : connection) :
  tls (doMAIL c) = tls c /\ authc (doMAIL c) = authc c /\ esmtp (doMAIL c) = esmtp c.
Proof.
  destruct c. unfold doMAIL, parsePath, reply, writeReply.
  branches; repeat split.
Qed.

Lemma doRCPT_frame (c : connection) :
  tls (doRCPT c) = tls c /\ authc (doRCPT c) = authc c /\ esmtp (doRCPT c) = esmtp c.
Proof.
  destruct c. unfold doRCPT, parsePath, reply, writeReply.
  branches; repeat split.
Qed.

Lemma doRSET_frame (c : connection) :
  tls (doRSET c) = tls c /\ authc (doRSET c) = authc c /\ esmtp (doRSET c) = esmtp c.
Proof. unfold doRSET. rewrite reply_wire. repeat split. Qed.

Lemma doDATA_frame (c c' : connection) :
  doDATA c = Returns c' ->
  tls c' = tls c /\ authc c' = authc c /\ esmtp c' = esmtp c.
Proof.
  destruct c. unfold doDATA, finish, reply, writeReply, textproto.ReadDotBytes.
  intros H. revert H.
  branches; intros H; try discriminate; injection H as <-; repeat split.
Qed.

End Frames.

Section SessionFields.

Context {server : Server} {rt : Runtime}.

Lemma doSTARTTLS_frame (c : connection) :
  (tls c <> None -> tls (doSTARTTLS c) <> None)
  /\ authc (doSTARTTLS c) = authc c
  /\ esmtp (doSTARTTLS c) = esmtp c.
Proof.
  destruct c. unfold doSTARTTLS, Handshake, reply, writeReply.
  branches; repeat split; auto; discriminate.
Qed.

Lemma doAUTH_identity (c : connection) :
  authc (doAUTH c) = authc c
  \/ (authc c = ""
      /\ conn_state c = stateInitial
      /\ tls c <> None
      /\ exists authz passwd, Authenticate authz (authc (doAUTH c)) passwd = true).
Proof.
  destruct c.
  unfold doAUTH, authenticate, fmt.Sscanf, reply, writeReply, textproto.ReadLine.
  branches; try (left; reflexivity).
  all: right.
  all: match goal with
       | H : negb (String.eqb _ "") = false |- _ =>
           apply negb_false_iff, String.eqb_eq in H
       end.
  all: match goal with
       | H : orb _ _ = false |- _ => apply orb_false_iff in H; destruct H as [Hs Ht]
       end.
  all: match goal with
       | H : negb (Authenticate _ _ _) = false |- _ => apply negb_false_iff in H
       end.
  all: repeat split;
    [ assumption
    | destruct conn_state0; try discriminate; reflexivity
    | destruct tls0; discriminate
    | cbn; eauto ].
Qed.

(** X4.  [doAUTH] changes [authc] only from empty, in the Initial state, with
    TLS active, and only to an authentication identity that
    [Authenticate] accepted with the credentials sent. *)
Theorem doAUTH_records_only_accepted_identity (c : connection) :
  authc (doAUTH c) = authc c
  \/ (authc c = ""
      /\ conn_state c = stateInitial
      /\ tls c <> None
      /\ exists authz passwd, Authenticate authz (authc (doAUTH c)) passwd = true).
Proof. exact (doAUTH_identity c). Qed.

Lemma doAUTH_frame (c : connection) :
  tls (doAUTH c) = tls c /\ esmtp (doAUTH c) = esmtp c.
Proof.
  destruct c.
  unfold doAUTH, authenticate, fmt.Sscanf, reply, writeReply, textproto.ReadLine.
  branches; split; reflexivity.
Qed.

(** X2.  Over any number of turns of the loop: TLS, once active, stays
    active; the authenticated identity, once recorded, is never changed or
    cleared (not by RSET, EHLO or a further STARTTLS or AUTH); and
    [esmtp], once set, stays set. *)
Theorem session_fields_persist (n : nat) (c c' : connection) :
  after n c = Some c' ->
  (tls c <> None -> tls c' <> None)
  /\ (authc c <> "" -> authc c' = authc c)
  /\ (esmtp c = true -> esmtp c' = true).
Proof.
  apply (after_preserves
           (fun x => (tls c <> None -> tls x <> None)
                     /\ (authc c <> "" -> authc x = authc c)
                     /\ (esmtp c = true -> esmtp x = true))); [|tauto].
  apply serveLine_preserves.
  - intros x t l Hx. destruct x; exact Hx.
  - intros x (Ht & Ha & He). destruct x; cbn in *. repeat split; auto.
  - intros x code msg Hx.
    destruct (writeReply_frame x code msg) as (-> & -> & ->). exact Hx.
  - intros x Hx. destruct (doEHLO_frame x) as (-> & -> & ->). exact Hx.
  - intros x (Ht & Ha & He).
    destruct (doSTARTTLS_frame x) as (Hk & -> & ->). repeat split; auto.
  - intros x (Ht & Ha & He).
    destruct (doAUTH_frame x) as (-> & ->). repeat split; auto.
    intros Hc. specialize (Ha Hc).
    destruct (doAUTH_identity x) as [-> | (Hempty & _)]; [exact Ha|].
    rewrite Ha in Hempty. contradiction.
  - intros x Hx. destruct (doMAIL_frame x) as (-> & -> & ->). exact Hx.
  - intros x Hx. destruct (doRCPT_frame x) as (-> & -> & ->). exact Hx.
  - intros x x' Hx Hd. destruct (doDATA_frame x x' Hd) as (-> & -> & ->). exact Hx.
  - intros x Hx. destruct (doRSET_frame x) as (-> & -> & ->). exact Hx.
Qed.

(** X3.  In every session a non-empty [authc] comes with an active TLS
    connection: the comment on the field holds. *)
Theorem authenticated_implies_tls (c : connection) :
  reachable c -> authenticated c -> tls c <> None.
Proof.
  intros (remote & local & lines & hs & now & n & Hrun).
  refine (after_preserves (fun x => authenticated x -> tls x <> None) _ n _ c _ Hrun).
  - apply (serveLine_preserves (fun x => authenticated x -> tls x <> None));
      unfold authenticated.
    + intros x t l Hx. destruct x; exact Hx.
    + intros x Hx. destruct x; exact Hx.
    + intros x code msg Hx.
      destruct (writeReply_frame x code msg) as (-> & -> & _). exact Hx.
    + intros x Hx. destruct (doEHLO_frame x) as (-> & -> & _). exact Hx.
    + intros x Hx. destruct (doSTARTTLS_frame x) as (Hk & -> & _). auto.
    + intros x Hx. destruct (doAUTH_frame x) as (-> & _).
      destruct (doAUTH_identity x) as [-> | (_ & _ & Htls & _)]; auto.
    + intros x Hx. destruct (doMAIL_frame x) as (-> & -> & _). exact Hx.
    + intros x Hx. destruct (doRCPT_frame x) as (-> & -> & _). exact Hx.
    + intros x x' Hx Hd. destruct (doDATA_frame x x' Hd) as (-> & -> & _). exact Hx.
    + intros x Hx. destruct (doRSET_frame x) as (-> & -> & _). exact Hx.
  - unfold authenticated, accepted. rewrite writeReply_wire. cbn. intros H; contradiction.
Qed.

End SessionFields.

Section Transactions.

Context {server : Server} {rt : Runtime}.

(** The send-as rewrite touches the data and the sender's address, and
    nothing else of the envelope. *)
Lemma handleSendAs_frame (c : connection) (env : Envelope) :
  RemoteAddr (handleSendAs c env) = RemoteAddr env
  /\ EHLO (handleSendAs c env) = EHLO env
  /\ mail.Name (MailFrom (handleSendAs c env)) = mail.Name (MailFrom env)
  /\ RcptTo (handleSendAs c env) = RcptTo env
  /\ Received (handleSendAs c env) = Received env
  /\ ID (handleSendAs c env) = ID env.
Proof.
  unfold handleSendAs.
  destruct (negb _); [repeat split|].
  destruct (_ =? -1); [repeat split|].
  destruct (findHeaders _ 0 0 0) as [fromIdx subjectIdx].
  destruct (subjectIdx =? -1); [repeat split|].
  destruct (fromIdx =? -1); [repeat split|].
  destruct (SendAsSubject_FindSubmatchIndex _) as [[[[m0 m1] m2] m3]|]; repeat split.
Qed.

Lemma assemble_RcptTo (c : connection) (from : mail.Address) (received : Instant)
    (data : string) :
  RcptTo (assemble c from received data) = rcptTo c.
Proof.
  unfold assemble. cbn [RcptTo].
  destruct (handleSendAs_frame c
              (mkEnvelope (remoteAddr c) (ehlo c) from (rcptTo c) received
                 (generateEnvelopeId "m" received) data)) as (_ & _ & _ & -> & _).
  reflexivity.
Qed.

(** Computes the field updates and projections of a connection. *)
Ltac fields :=
  cbv beta iota delta
    [set_tp set_nc set_esmtp set_tls set_authc set_state set_line set_delivery
     set_sendAs set_ehlo set_mailFrom set_rcptTo set_handed set_clock resetBuffers
     tp nc remoteAddr esmtp tls authc conn_state line conn_delivery sendAs ehlo
     mailFrom rcptTo handed clock].

(** What each handler can do to the connection, whatever the line. *)
Lemma doAUTH_shape (c : connection) :
  exists t a, doAUTH c = set_authc (set_tp c t) a.
Proof.
  destruct c.
  unfold doAUTH, authenticate, fmt.Sscanf, reply, writeReply, textproto.ReadLine.
  branches; eexists; eexists; (fields; reflexivity).
Qed.

Lemma doEHLO_transaction (c : connection) :
  conn_delivery (doEHLO c) = deliverUnknown
  /\ mailFrom (doEHLO c) = None
  /\ rcptTo (doEHLO c) = []
  /\ handed (doEHLO c) = handed c
  /\ (conn_state (doEHLO c) = conn_state c \/ conn_state (doEHLO c) = stateInitial).
Proof.
  unfold doEHLO.
  destruct (fmt.Sscanf 2 _) as [|x1 [|x2 [|x3 xs]]]; rewrite ?reply_wire;
    try (repeat split; left; reflexivity).
  destruct (String.eqb x1 "HELO"); rewrite ?writeReply_wire;
    [repeat split; right; reflexivity|].
  unfold PrintfLine. destruct c as [? ? ? ? tls0 ? ? ? ? ? ? ? ? ? ?].
  destruct TLSConfig, tls0; repeat split; right; reflexivity.
Qed.

Lemma doSTARTTLS_shape (c : connection) :
  (exists t n, doSTARTTLS c = set_nc (set_tp c t) n)
  \/ (conn_state c = stateInitial
      /\ exists t n k, doSTARTTLS c = set_tls (set_state (set_nc (set_tp c t) n) stateNew) k).
Proof.
  destruct c as [? ? ? ? ? ? st ? ? ? ? ? ? ? ?].
  unfold doSTARTTLS, Handshake, reply, writeReply.
  destruct st; branches;
    first [ left; do 2 eexists; (fields; reflexivity)
          | right; split; [(fields; reflexivity) | do 3 eexists; (fields; reflexivity)] ].
Qed.

(** [doMAIL] never touches the recipients; outside the Initial state it
    only replies; in it, it stores what the address parsed to and, when it
    accepts, classifies the transaction and moves to Mail. *)
Lemma doMAIL_shape (c : connection) :
  (exists t, doMAIL c = set_tp c t)
  \/ (conn_state c = stateInitial
      /\ ((exists t m, doMAIL c = set_tp (set_mailFrom c m) t)
          \/ (exists t a d,
                 d <> deliverUnknown
                 /\ doMAIL c
                    = set_tp (set_state (set_delivery (set_mailFrom c (Some a)) d) stateMail) t))).
Proof.
  destruct c as [? ? ? ? ? ? st ? ? ? ? ? ? ? ?].
  unfold doMAIL, parsePath, reply, writeReply.
  destruct st; branches;
    first [ left; eexists; (fields; reflexivity)
          | right; split; [(fields; reflexivity)|]; left; do 2 eexists; (fields; reflexivity)
          | right; split; [(fields; reflexivity)|]; right; do 3 eexists;
            split; [|(fields; reflexivity)]; discriminate ].
Qed.

(** [doRCPT] only replies, or, in the Mail or Recipient state, appends
    one address and moves to Recipient. *)
Lemma doRCPT_shape (c : connection) :
  (exists t, doRCPT c = set_tp c t)
  \/ ((conn_state c = stateMail \/ conn_state c = stateRecipient)
      /\ exists t a,
           doRCPT c = set_tp (set_state (set_rcptTo c (rcptTo c ++ [a])) stateRecipient) t).
Proof.
  destruct c as [? ? ? ? ? ? st ? ? ? ? ? ? ? ?].
  unfold doRCPT, parsePath, reply, writeReply.
  destruct st; branches;
    first [ left; eexists; (fields; reflexivity)
          | right; split; [auto | do 2 eexists; (fields; reflexivity)] ].
Qed.

(** [doDATA], when it returns, has only replied, or, in the Recipient
    state, has read the body and the clock and then either handed the
    envelope of an Inbound transaction to a server that rejected it, or
    ended the transaction, after handing over the envelope if the
    transaction was classified. *)
Lemma doDATA_shape (c c' : connection) :
  doDATA c = Returns c' ->
  (exists t, c' = set_tp c t)
  \/ (conn_state c = stateRecipient
      /\ exists t k,
           (exists x, conn_delivery c = deliverInbound
                      /\ RcptTo (envelopeOf x) = rcptTo c
                      /\ c' = set_handed (set_clock (set_tp c t) k) (handed c ++ [x]))
           \/ (conn_delivery c = deliverUnknown
               /\ c' = set_clock (set_tp (resetBuffers (set_state c stateInitial)) t) k)
           \/ (exists x, conn_delivery c <> deliverUnknown
                         /\ RcptTo (envelopeOf x) = rcptTo c
                         /\ c' = set_handed
                                   (set_clock (set_tp (resetBuffers (set_state c stateInitial)) t) k)
                                   (handed c ++ [x]))).
Proof.
  destruct c as [? ? ? ? ? ? st ? ? ? ? ? ? ? ?].
  unfold doDATA, finish, textproto.ReadDotBytes.
  unfold reply, writeReply.
  intros H. revert H.
  destruct st; branches; intros H; try discriminate; injection H as <-.
  all: first
    [ left; eexists; (fields; reflexivity)
    | right; split; [(fields; reflexivity)|]; do 2 eexists; left;
      eexists; split; [(fields; reflexivity)|]; split; [|(fields; reflexivity)]; cbn [envelopeOf]; apply assemble_RcptTo
    | right; split; [(fields; reflexivity)|]; do 2 eexists; right; left;
      split; (fields; reflexivity)
    | right; split; [(fields; reflexivity)|]; do 2 eexists; right; right;
      eexists; split; [discriminate|]; split; [|(fields; reflexivity)]; cbn [envelopeOf]; apply assemble_RcptTo ].
Qed.

(** The invariant looks at the state, the classification, the sender,
    the recipients and the hand-offs only. *)
Lemma wf_ext (c c' : connection) :
  conn_state c' = conn_state c -> conn_delivery c' = conn_delivery c ->
  mailFrom c' = mailFrom c -> rcptTo c' = rcptTo c -> handed c' = handed c ->
  transaction_wf c /\ handed_wf c -> transaction_wf c' /\ handed_wf c'.
Proof.
  unfold transaction_wf, handed_wf. intros -> -> -> -> ->. tauto.
Qed.

Ltac wf :=
  unfold transaction_wf, handed_wf in *; fields;
  intuition (try congruence; try discriminate);
  try match goal with
      | H : (_ ++ [_])%list = [] |- _ =>
          apply app_eq_nil in H; destruct H; discriminate
      end.

Lemma transaction_wf_reply (c : connection) (code : Z) (msg : string) :
  transaction_wf c /\ handed_wf c ->
  transaction_wf (writeReply c code msg) /\ handed_wf (writeReply c code msg).
Proof. rewrite writeReply_wire. apply wf_ext; reflexivity. Qed.

Lemma transaction_wf_doAUTH (c : connection) :
  transaction_wf c /\ handed_wf c -> transaction_wf (doAUTH c) /\ handed_wf (doAUTH c).
Proof.
  destruct (doAUTH_shape c) as (t & a & ->). apply wf_ext; reflexivity.
Qed.

Lemma transaction_wf_doEHLO (c : connection) :
  transaction_wf c /\ handed_wf c -> transaction_wf (doEHLO c) /\ handed_wf (doEHLO c).
Proof.
  destruct (doEHLO_transaction c) as (Hd & Hm & Hr & Hh & Hs).
  unfold transaction_wf, handed_wf. rewrite Hd, Hm, Hr, Hh.
  intros ((Hdata & _) & Hok). repeat split; try congruence.
  destruct Hs as [-> | ->]; [exact Hdata | discriminate].
Qed.

Lemma transaction_wf_doRSET (c : connection) :
  transaction_wf c /\ handed_wf c -> transaction_wf (doRSET c) /\ handed_wf (doRSET c).
Proof. unfold doRSET. rewrite reply_wire. destruct c. wf. Qed.

Lemma transaction_wf_doSTARTTLS (c : connection) :
  transaction_wf c /\ handed_wf c ->
  transaction_wf (doSTARTTLS c) /\ handed_wf (doSTARTTLS c).
Proof.
  destruct (doSTARTTLS_shape c) as [(t & n & ->) | (Hst & t & n & k & ->)].
  - apply wf_ext; reflexivity.
  - destruct c; cbn in Hst; subst. wf.
Qed.

Lemma transaction_wf_doMAIL (c : connection) :
  transaction_wf c /\ handed_wf c -> transaction_wf (doMAIL c) /\ handed_wf (doMAIL c).
Proof.
  destruct (doMAIL_shape c)
    as [(t & ->) | (Hst & [(t & m & ->) | (t & a & d & Hd & ->)])].
  - apply wf_ext; reflexivity.
  - destruct c; cbn in Hst; subst. wf.
  - destruct c; cbn in Hst; subst. wf.
Qed.

Lemma transaction_wf_doRCPT (c : connection) :
  transaction_wf c /\ handed_wf c -> transaction_wf (doRCPT c) /\ handed_wf (doRCPT c).
Proof.
  destruct (doRCPT_shape c) as [(t & ->) | (Hst & t & a & ->)].
  - apply wf_ext; reflexivity.
  - destruct c; cbn in Hst. wf.
Qed.

Lemma transaction_wf_doDATA (c c' : connection) :
  transaction_wf c /\ handed_wf c -> doDATA c = Returns c' ->
  transaction_wf c' /\ handed_wf c'.
Proof.
  intros Hwf Hd.
  destruct (doDATA_shape c c' Hd)
    as [(t & ->)
       | (Hst & t & k & [(x & Hin & Hx & ->) | [(Hu & ->) | (x & Hk & Hx & ->)]])].
  - revert Hwf. apply wf_ext; reflexivity.
  - assert (Hne : RcptTo (envelopeOf x) <> []).
    { rewrite Hx. destruct Hwf as ((_ & _ & _ & H4) & _). apply H4; congruence. }
    destruct Hwf as (Ht & Hh). split.
    + revert Ht. unfold transaction_wf. destruct c. fields. tauto.
    + unfold handed_wf in *. destruct c. fields. apply Forall_app. split; [exact Hh|].
      constructor; [exact Hne | constructor].
  - destruct c. wf.
  - assert (Hne : RcptTo (envelopeOf x) <> []).
    { rewrite Hx. destruct Hwf as ((_ & _ & _ & H4) & _). apply H4; congruence. }
    destruct Hwf as (Ht & Hh). split.
    + destruct c. wf.
    + unfold handed_wf in *. destruct c. fields. apply Forall_app. split; [exact Hh|].
      constructor; [exact Hne | constructor].
Qed.

End Transactions.

Section Reachability.

Context {server : Server} {rt : Runtime}.

Lemma reachable_wf (c : connection) :
  reachable c -> transaction_wf c /\ handed_wf c.
Proof.
  intros (remote & local & lines & hs & now & n & Hrun).
  refine (after_preserves (fun x => transaction_wf x /\ handed_wf x) _ n _ c _ Hrun).
  - apply (serveLine_preserves (fun x => transaction_wf x /\ handed_wf x)).
    + intros x t l. apply wf_ext; reflexivity.
    + intros x. apply wf_ext; reflexivity.
    + apply transaction_wf_reply.
    + apply transaction_wf_doEHLO.
    + apply transaction_wf_doSTARTTLS.
    + apply transaction_wf_doAUTH.
    + apply transaction_wf_doMAIL.
    + apply transaction_wf_doRCPT.
    + apply transaction_wf_doDATA.
    + apply transaction_wf_doRSET.
  - unfold accepted. apply transaction_wf_reply.
    unfold transaction_wf, handed_wf. cbn.
    repeat split; try congruence; try discriminate. constructor.
Qed.

(** X5.  Between commands a session is never in the Data state; a transaction
    that has been classified has a sender and is in the Mail or Recipient
    state; recipients are held only in the Recipient state; and a
    classified transaction in the Recipient state has at least one
    recipient. *)
Theorem reachable_transaction_wf (c : connection) :
  reachable c -> transaction_wf c.
Proof. intros H. apply reachable_wf, H. Qed.

(** X6.  Every envelope that was handed to [DeliverMessage] or [RelayMessage]
    names at least one recipient. *)
Theorem handed_envelopes_name_recipients (c : connection) (h : handoff) :
  reachable c -> In h (handed c) -> RcptTo (envelopeOf h) <> [].
Proof.
  intros Hr Hin. destruct (reachable_wf c Hr) as (_ & Hh).
  unfold handed_wf in Hh. rewrite Forall_forall in Hh. apply Hh, Hin.
Qed.

(** [doDATA] panics only past its state guard and with a nil sender, and
    then before anything is handed over. *)
Lemma doDATA_panics (c c' : connection) :
  doDATA c = Panics c' ->
  conn_state c = stateRecipient /\ mailFrom c = None /\ handed c' = handed c.
Proof.
  destruct c as [? ? ? ? ? ? st ? ? ? ? mf ? ? ?].
  unfold doDATA, finish, textproto.ReadDotBytes, reply, writeReply.
  intros H. revert H.
  destruct st, mf; branches; intros H; try discriminate; injection H as <-;
    repeat split.
Qed.

(** X7.  The only turn of the loop that panics is a DATA command in the
    Recipient state of a transaction that has lost its sender and its
    classification; a classified transaction never panics. *)
Theorem panic_only_without_sender (c c' : connection) :
  reachable c -> serveLine c = Panic c' ->
  conn_state c = stateRecipient
  /\ mailFrom c = None
  /\ conn_delivery c = deliverUnknown
  /\ handed c' = handed c.
Proof.
  intros Hr Hturn.
  destruct (reachable_wf c Hr) as ((_ & Hd & _) & _).
  unfold serveLine in Hturn.
  destruct (textproto.ReadLine (tp c)) as [[l|] t]; [|discriminate].
  cbv zeta in Hturn.
  set (c0 := set_line (set_tp c t) l) in *.
  destruct (fmt.Sscanf 1 (line c0)) as [|cmd [|cmd2 more]]; try discriminate.
  repeat match type of Hturn with
         | (if ?b then _ else _) = _ => destruct b
         end;
    try discriminate.
  unfold handled in Hturn.
  destruct (doDATA c0) as [c1|c1] eqn:Hdata; [discriminate|].
  injection Hturn as <-.
  destruct (doDATA_panics c0 c1 Hdata) as (Hst & Hmf & Hh).
  change (conn_state c = stateRecipient) in Hst.
  change (mailFrom c = None) in Hmf.
  change (handed c1 = handed c) in Hh.
  repeat split; try assumption.
  destruct (conn_delivery c); [reflexivity| |];
    (destruct Hd as [Hsender _]; [discriminate | contradiction]).
Qed.

End Reachability.

(** ** Paths, greetings and the TLS upgrade *)

Lemma lowerByte_idempotent (a : ascii) :
  strings.lowerByte (strings.lowerByte a) = strings.lowerByte a.
Proof. destruct a as [[] [] [] [] [] [] [] []]; reflexivity. Qed.

Lemma ToLower_idempotent (s : string) : strings.ToLower (strings.ToLower s) = strings.ToLower s.
Proof.
  induction s as [|a r IH]; cbn [strings.ToLower]; [reflexivity|].
  rewrite lowerByte_idempotent, IH. reflexivity.
Qed.

Lemma length_append (s t : string) :
  String.length (s ++ t) = (String.length s + String.length t)%nat.
Proof. induction s as [|a r IH]; cbn; [reflexivity|]. rewrite IH. reflexivity. Qed.

Lemma take_append (n : nat) (s t : string) :
  (n <= String.length s)%nat -> strings.take n (s ++ t) = strings.take n s.
Proof.
  revert s. induction n as [|n IH]; intros s Hn; [reflexivity|].
  destruct s as [|a r]; cbn in Hn; [lia|].
  cbn. rewrite IH by lia. reflexivity.
Qed.

Lemma drop_append (n : nat) (s t : string) :
  (n <= String.length s)%nat -> strings.drop n (s ++ t) = strings.drop n s ++ t.
Proof.
  revert s. induction n as [|n IH]; intros s Hn; [reflexivity|].
  destruct s as [|a r]; cbn in Hn; [lia|].
  cbn. apply IH. lia.
Qed.

Lemma take_drop (n : nat) (s : string) : strings.take n s ++ strings.drop n s = s.
Proof.
  revert s. induction n as [|n IH]; intros s; [reflexivity|].
  destruct s as [|a r]; [reflexivity|]. cbn. rewrite IH. reflexivity.
Qed.

Lemma length_drop (n : nat) (s : string) :
  String.length (strings.drop n s) = (String.length s - n)%nat.
Proof.
  revert s. induction n as [|n IH]; intros s; cbn; [lia|].
  destruct s as [|a r]; cbn; [reflexivity|]. apply IH.
Qed.

Lemma HasPrefix_empty (s : string) : strings.HasPrefix s "" = true.
Proof. destruct s; reflexivity. Qed.

(** [strings.Index] for a one-byte pattern: a match lies within the
    string, and text appended to the string does not move it. *)
Lemma Index_byte_bound (s : string) (b : ascii) :
  let i := strings.Index s (String b "") in
  i = -1 \/ (0 <= i /\ i < strings.len s).
Proof.
  unfold strings.len.
  induction s as [|a r IH]; cbn -[Z.of_nat]; [left; reflexivity|].
  rewrite HasPrefix_empty, andb_true_r.
  destruct (Ascii.eqb a b); [right; lia|].
  cbn zeta in IH.
  destruct (Z.eqb_spec (strings.Index r (String b "")) (-1)) as [E|E]; [left; reflexivity|].
  right. destruct IH as [IH|IH]; [contradiction|]. lia.
Qed.

Lemma Index_byte_append (s t : string) (b : ascii) :
  strings.Index s (String b "") <> -1 ->
  strings.Index (s ++ t) (String b "") = strings.Index s (String b "").
Proof.
  induction s as [|a r IH]; cbn; [intros H; contradiction|].
  rewrite !HasPrefix_empty, !andb_true_r.
  destruct (Ascii.eqb a b); [reflexivity|].
  destruct (Z.eqb_spec (strings.Index r (String b "")) (-1)) as [E|E];
    [intros H; contradiction|].
  intros _. rewrite (IH E).
  destruct (Z.eqb_spec (strings.Index r (String b "")) (-1)); [contradiction|reflexivity].
Qed.

Section Paths.

Context {server : Server} {rt : Runtime}.

(** X8.  The path [parsePath] returns is in lower case, whatever the case the
    client wrote the address in. *)
Theorem parsePath_lower_case (c : connection) (command : string) :
  strings.ToLower (fst (parsePath c command)) = fst (parsePath c command).
Proof.
  unfold parsePath.
  destruct (_ <? _); [reflexivity|].
  destruct (negb _); [reflexivity|].
  destruct (_ =? -1); [reflexivity|].
  cbn [fst]. apply ToLower_idempotent.
Qed.

(** X9.  What follows the first closing bracket of the line takes no part in
    the result of [parsePath]: parameters after the address are dropped
    unread. *)
Theorem parsePath_ignores_what_follows (c : connection) (command tail : string) :
  strings.len command <= strings.len (line c) ->
  strings.Index (strings.sliceFrom (line c) (strings.len command)) ">" <> -1 ->
  parsePath (set_line c (line c ++ tail)) command = parsePath c command.
Proof.
  intros Hlen Hidx. unfold parsePath.
  replace (line (set_line c (line c ++ tail))) with (line c ++ tail) by (destruct c; reflexivity).
  unfold strings.len in *. rewrite length_append.
  assert (Hc : (String.length command <= String.length (line c))%nat) by lia.
  destruct (Z.ltb_spec (Z.of_nat (String.length (line c) + String.length tail))
                       (Z.of_nat (String.length command))) as [E|_]; [lia|].
  destruct (Z.ltb_spec (Z.of_nat (String.length (line c)))
                       (Z.of_nat (String.length command))) as [E|_]; [lia|].
  unfold strings.sliceTo, strings.sliceFrom in *.
  rewrite Nat2Z.id in *.
  rewrite take_append, drop_append by exact Hc.
  destruct (negb _); [reflexivity|].
  set (params := strings.drop (String.length command) (line c)) in *.
  rewrite (Index_byte_append params tail ">"%char Hidx).
  destruct (Z.eqb_spec (strings.Index params ">") (-1)) as [E|_]; [contradiction|].
  pose proof (Index_byte_bound params ">"%char) as Hb. cbn zeta in Hb.
  destruct Hb as [Hb|Hb]; [contradiction|]. unfold strings.len in Hb.
  rewrite take_append by lia. reflexivity.
Qed.

(** X10.  An EHLO or HELO line with a domain: the transaction is reset, the
    domain stored and the state Initial.  The reply to HELO (the token
    spelled in capitals) is one line; any other spelling gets the list of
    extensions, in which STARTTLS is offered when the server has a TLS
    configuration and TLS is not active, and AUTH PLAIN when TLS is active,
    never both. *)
Theorem doEHLO_greets (c : connection) (cmd name : string) :
  fmt.Sscanf 2 (line c) = [cmd; name] ->
  textproto.closed (tp c) = false ->
  let hello := (name ++ " [" ++ remoteAddr c ++ "]") in
  let c' := doEHLO c in
  conn_state c' = stateInitial
  /\ ehlo c' = name
  /\ mailFrom c' = None /\ rcptTo c' = [] /\ conn_delivery c' = deliverUnknown
  /\ textproto.sent (tp c')
     = (textproto.sent (tp c)
        ++ (if String.eqb cmd "HELO" then [("250 Hello " ++ hello)%string]
            else [("250-Hello " ++ hello)%string]
                 ++ match TLSConfig, tls c with
                    | Some _, None => ["250-STARTTLS"]
                    | _, _ => []
                    end
                 ++ match tls c with
                    | Some _ => ["250-AUTH PLAIN"]
                    | None => []
                    end
                 ++ ["250 SIZE 40960000"]))%list.
Proof.
  intros Hscan Hopen. cbv zeta. unfold doEHLO.
  replace (line (resetBuffers c)) with (line c) by reflexivity.
  rewrite Hscan.
  destruct c as [tp0 ? ? ? tls0 ? ? ? ? ? ? ? ? ? ?]. cbn in Hopen.
  destruct (String.eqb cmd "HELO").
  - rewrite writeReply_wire. cbn. unfold textproto.PrintfLine. rewrite Hopen. cbn.
    repeat split.
  - unfold PrintfLine.
    destruct TLSConfig, tls0; cbn; unfold textproto.PrintfLine; cbn; rewrite ?Hopen; cbn;
      repeat split; rewrite <- ?app_assoc; reflexivity.
Qed.

(** X11.  STARTTLS in the Initial state.  Without ESMTP or without a TLS
    configuration the command is unknown.  Otherwise [220] is sent and the
    handshake run: when it fails nothing else changes, no reply follows and
    the session goes on in the Initial state; when it succeeds the state
    is New and the TLS state recorded, and the authenticated identity and
    the greeting name survive the upgrade. *)
Theorem doSTARTTLS_outcomes (c : connection) :
  conn_state c = stateInitial ->
  let c' := doSTARTTLS c in
  (esmtp c = false \/ TLSConfig = None ->
     c' = set_tp c (textproto.PrintfLine (tp c) "500 unrecognized command"))
  /\ (esmtp c = true -> TLSConfig <> None ->
      tp c' = textproto.PrintfLine (tp c) "220 initiate TLS connection"
      /\ nc c' = snd (Handshake (nc c))
      /\ authc c' = authc c /\ ehlo c' = ehlo c /\ esmtp c' = esmtp c
      /\ match fst (Handshake (nc c)) with
         | None => conn_state c' = stateInitial /\ tls c' = tls c
         | Some k => conn_state c' = stateNew /\ tls c' = Some k
         end).
Proof.
  intros Hst. cbv zeta. unfold doSTARTTLS. rewrite Hst. cbn [state_eqb negb].
  split.
  - intros [He | Hc]; [rewrite He | rewrite Hc; destruct (esmtp c)];
      rewrite writeReply_wire; reflexivity.
  - intros He Hc. rewrite He.
    destruct TLSConfig as [cfg|]; [|contradiction].
    rewrite writeReply_wire.
    replace (nc (set_tp c _)) with (nc c) by reflexivity.
    destruct (Handshake (nc c)) as [[k|] n]; cbn; repeat split; assumption.
Qed.

End Paths.

(** ** Sequencing, the end of a transaction and the send-as rewrite *)

Lemma state_eqb_eq (a b : state) : state_eqb a b = true <-> a = b.
Proof. destruct a, b; split; intros H; try reflexivity; discriminate. Qed.

Lemma state_eqb_neq (a b : state) : a <> b -> state_eqb a b = false.
Proof.
  intros N. destruct (state_eqb a b) eqn:E; [|reflexivity].
  apply state_eqb_eq in E. contradiction.
Qed.

Section Sequencing.

Context {server : Server} {rt : Runtime}.

(** X1.  A command outside the states it is allowed in is answered with the
    bad-sequence reply and changes nothing but the output: STARTTLS, AUTH
    and MAIL outside Initial, AUTH without TLS, RCPT outside Mail and
    Recipient, DATA outside Recipient. *)
Theorem out_of_sequence_only_replies (c : connection) :
  let rejected := set_tp c (textproto.PrintfLine (tp c) (wire ReplyBadSequence)) in
  (conn_state c <> stateInitial ->
     doSTARTTLS c = rejected /\ doAUTH c = rejected /\ doMAIL c = rejected)
  /\ (tls c = None -> doAUTH c = rejected)
  /\ (conn_state c <> stateMail -> conn_state c <> stateRecipient -> doRCPT c = rejected)
  /\ (conn_state c <> stateRecipient -> doDATA c = Returns rejected).
Proof.
  cbv zeta. rewrite <- reply_wire.
  split; [|split; [|split]].
  - intros H. repeat split.
    + unfold doSTARTTLS. rewrite (state_eqb_neq _ _ H). reflexivity.
    + unfold doAUTH. rewrite (state_eqb_neq _ _ H). reflexivity.
    + unfold doMAIL. rewrite (state_eqb_neq _ _ H). reflexivity.
  - intros H. unfold doAUTH. rewrite H, orb_true_r. reflexivity.
  - intros H H0. unfold doRCPT.
    rewrite (state_eqb_neq _ _ H), (state_eqb_neq _ _ H0). reflexivity.
  - intros H. unfold doDATA. rewrite (state_eqb_neq _ _ H). reflexivity.
Qed.

(** X12.  RSET leads to the Initial state from every state, the New state
    included: a MAIL FROM that follows it is handled as in any Initial
    state, so a client that sends RSET first has its mail accepted without
    HELO or EHLO. *)
Theorem RSET_opens_transaction_from_any_state (c : connection) (l path : string)
    (from : mail.Address) :
  let c1 := set_line (doRSET c) l in
  parsePath c1 "MAIL FROM:" = (path, ReplyOK) ->
  ParseAddress path = Some from ->
  VerifyAddress from <> ReplyOK ->
  conn_state (doMAIL c1) = stateMail
  /\ conn_delivery (doMAIL c1) = deliverInbound
  /\ mailFrom (doMAIL c1) = Some from
  /\ rcptTo (doMAIL c1) = []
  /\ esmtp (doMAIL c1) = esmtp c
  /\ ehlo (doMAIL c1) = ehlo c.
Proof.
  cbv zeta. intros Hpath Hparse Hrej.
  unfold doMAIL.
  replace (conn_state (set_line (doRSET c) l)) with stateInitial
    by (unfold doRSET; rewrite reply_wire; reflexivity).
  cbn [state_eqb negb]. rewrite Hpath, ReplyLine_eqb_refl. cbn [negb mailFrom set_mailFrom].
  rewrite Hparse, (ReplyLine_eqb_neq _ _ Hrej), reply_wire.
  unfold doRSET. rewrite reply_wire. repeat split.
Qed.

(** X13.  A DATA command in the Recipient state with a sender, whose body is
    read, for an Outbound transaction or an Inbound one the server
    accepts: the envelope is handed over (relayed, respectively
    delivered), the reply is the OK reply, and the transaction is over:
    Initial state, no sender, no recipients, no classification.  TLS and
    the authenticated identity stay. *)
Theorem doDATA_accepted (c : connection) (from : mail.Address) (data : string)
    (t : textproto.Conn) :
  let env := assemble c from (clock c) data in
  conn_state c = stateRecipient ->
  mailFrom c = Some from ->
  textproto.ReadDotBytes
    (tp (writeReply c 354 "Start mail input; end with <CRLF>.<CRLF>")) = (Some data, t) ->
  conn_delivery c = deliverOutbound
  \/ (conn_delivery c = deliverInbound /\ DeliverMessage env = None) ->
  exists c',
    doDATA c = Returns c'
    /\ tp c' = textproto.PrintfLine t (wire ReplyOK)
    /\ conn_state c' = stateInitial
    /\ mailFrom c' = None /\ rcptTo c' = [] /\ conn_delivery c' = deliverUnknown
    /\ handed c'
       = (handed c
          ++ [match conn_delivery c with
              | deliverOutbound => Relayed env
              | _ => Delivered env
              end])%list
    /\ tls c' = tls c /\ authc c' = authc c.
Proof.
  cbv zeta. intros Hst Hfrom Hread Hkind.
  unfold doDATA. rewrite Hst. cbn [state_eqb negb]. rewrite Hread.
  cbv zeta.
  replace (mailFrom (set_clock (set_tp (writeReply c 354 _) t) _)) with (mailFrom c)
    by (rewrite writeReply_wire; reflexivity).
  replace (conn_delivery (set_clock (set_tp (writeReply c 354 _) t) _)) with (conn_delivery c)
    by (rewrite writeReply_wire; reflexivity).
  replace (clock (set_tp (writeReply c 354 _) t)) with (clock c)
    by (rewrite writeReply_wire; reflexivity).
  rewrite Hfrom, assemble_after_read.
  destruct Hkind as [Hout | [Hin Hacc]].
  - rewrite Hout. unfold finish. eexists. split; [reflexivity|].
    rewrite reply_wire, writeReply_wire. repeat split.
  - rewrite Hin, Hacc. unfold finish. eexists. split; [reflexivity|].
    rewrite reply_wire, writeReply_wire. repeat split.
Qed.

(** X14.  When the body cannot be read to its end, DATA answers [552
    transaction failed], hands nothing over and leaves the transaction as
    it was, in the Recipient state. *)
Theorem doDATA_read_failure (c : connection) (t : textproto.Conn) :
  conn_state c = stateRecipient ->
  textproto.ReadDotBytes
    (tp (writeReply c 354 "Start mail input; end with <CRLF>.<CRLF>")) = (None, t) ->
  doDATA c = Returns (set_tp c (textproto.PrintfLine t "552 transaction failed")).
Proof.
  intros Hst Hread. unfold doDATA. rewrite Hst. cbn [state_eqb negb]. rewrite Hread.
  rewrite !writeReply_wire. reflexivity.
Qed.

(** X15.  The send-as rewrite leaves the envelope alone unless the transaction
    is Outbound, and when it does change the sender, the new address is in
    the domain of the authenticated identity, whatever the message says. *)
Theorem handleSendAs_pins_domain (c : connection) (env : Envelope) :
  (conn_delivery c <> deliverOutbound -> handleSendAs c env = env)
  /\ (handleSendAs c env = env
      \/ exists user,
           mail.Addr (MailFrom (handleSendAs c env))
           = user ++ "@" ++ DomainForAddressString (authc c)).
Proof.
  unfold handleSendAs. split.
  - intros Hd. destruct (conn_delivery c); try reflexivity. contradiction.
  - destruct (negb _); [left; reflexivity|].
    destruct (_ =? -1); [left; reflexivity|].
    destruct (findHeaders _ 0 0 0) as [fromIdx subjectIdx].
    destruct (subjectIdx =? -1); [left; reflexivity|].
    destruct (fromIdx =? -1); [left; reflexivity|].
    destruct (SendAsSubject_FindSubmatchIndex _) as [[[[m0 m1] m2] m3]|];
      [|left; reflexivity].
    right. eexists. reflexivity.
Qed.

(** X16.  The send-as rewrite works on the header block only: the data from
    the first empty line on is kept byte for byte at the end of the
    result, and the recipients, the identifier, the time of receipt, the
    greeting name, the remote address and the sender's display name are
    kept. *)
Theorem handleSendAs_keeps_body (c : connection) (env : Envelope) :
  let headerIdx := strings.Index (Data env) (LF ++ LF) in
  (exists head,
     Data (handleSendAs c env) = head ++ strings.sliceFrom (Data env) headerIdx)
  /\ RcptTo (handleSendAs c env) = RcptTo env
  /\ ID (handleSendAs c env) = ID env
  /\ Received (handleSendAs c env) = Received env
  /\ EHLO (handleSendAs c env) = EHLO env
  /\ RemoteAddr (handleSendAs c env) = RemoteAddr env
  /\ mail.Name (MailFrom (handleSendAs c env)) = mail.Name (MailFrom env).
Proof.
  cbv zeta.
  destruct (handleSendAs_frame c env) as (H1 & H2 & H3 & H4 & H5 & H6).
  split; [|repeat split; assumption].
  assert (Hsame : exists head,
             Data env = head ++ strings.sliceFrom (Data env)
                                  (strings.Index (Data env) (LF ++ LF))).
  { eexists. unfold strings.sliceFrom. symmetry. apply take_drop. }
  unfold handleSendAs.
  destruct (negb _); [exact Hsame|].
  change (String "010" (String "010" "")) with (LF ++ LF).
  destruct (_ =? -1); [exact Hsame|].
  destruct (findHeaders _ 0 0 0) as [fromIdx subjectIdx].
  destruct (subjectIdx =? -1); [exact Hsame|].
  destruct (fromIdx =? -1); [exact Hsame|].
  destruct (SendAsSubject_FindSubmatchIndex _) as [[[[m0 m1] m2] m3]|]; [|exact Hsame].
  eexists. reflexivity.
Qed.

End Sequencing.

(** ** The trace header *)

Lemma space_in_append (a b : string) :
  In " "%char (list_ascii_of_string (a ++ String " " b)).
Proof. induction a as [|x r IH]; cbn; [left; reflexivity | right; exact IH]. Qed.

Section Trace.

Context {server : Server} {rt : Runtime}.

(** X17.  The trace header tells whether TLS was active: the transport is
    given as [PLAINTEXT] exactly when it was not, whatever names or numbers
    the TLS state holds, and the protocol is [SMTP] or [ESMTP] exactly
    then. *)
Theorem trace_reports_tls (c : connection) :
  (tls c = None <-> getTransportString c = "PLAINTEXT")
  /\ (tls c = None <-> withProtocol c = "SMTP" \/ withProtocol c = "ESMTP").
Proof.
  unfold getTransportString, withProtocol. split.
  - destruct (tls c) as [st|]; [|tauto].
    split; [discriminate|]. intros E. exfalso.
    pose proof (space_in_append
                  (if String.eqb (mapIndex versions (crypto_tls.Version st)) ""
                   then fmt.x (crypto_tls.Version st)
                   else mapIndex versions (crypto_tls.Version st))
                  ("cipher="
                   ++ (if String.eqb (mapIndex ciphers (crypto_tls.CipherSuite st)) ""
                       then fmt.x (crypto_tls.CipherSuite st)
                       else mapIndex ciphers (crypto_tls.CipherSuite st))
                   ++ (if negb (String.eqb (crypto_tls.ServerName st) "")
                       then " name=" ++ crypto_tls.ServerName st else ""))) as Hin.
    cbv zeta in E. cbn [append] in E, Hin. rewrite E in Hin. cbn in Hin.
    repeat (destruct Hin as [Hin|Hin]; [discriminate Hin|]). exact Hin.
  - destruct (tls c) as [st|], (esmtp c); cbn; split; intros H;
      try reflexivity; try discriminate; auto;
      destruct H as [H|H]; discriminate.
Qed.

End Trace.

(** ** The earlier revision *)

Section LegacySession.

Context {server : Legacy.Server} {rt : Runtime} {net : Legacy.Net}.

(** X19.  In the earlier revision a read error does not end the session: once
    the client has no more lines to send, every turn of the loop answers
    [500 line too long] and goes on, so the loop never returns and the
    output grows by one line per turn. *)
Theorem legacy_read_error_never_ends (n : nat) (c : Legacy.connection) :
  textproto.pending (Legacy.tp c) = [] ->
  textproto.closed (Legacy.tp c) = false ->
  Legacy.serve n c = None
  /\ exists c',
       Legacy.after n c = Some c'
       /\ textproto.sent (Legacy.tp c')
          = (textproto.sent (Legacy.tp c) ++ repeat "500 line too long" n)%list.
Proof.
  revert c. induction n as [|n IH]; intros c Hpend Hopen.
  - split; [reflexivity|]. exists c. split; [reflexivity|].
    cbn. rewrite app_nil_r. reflexivity.
  - cbn [Legacy.serve Legacy.after].
    unfold Legacy.serveLine, textproto.ReadLine. rewrite Hopen, Hpend.
    set (c1 := Legacy.writeReply (Legacy.set_line (Legacy.set_tp c (Legacy.tp c)) "")
                 500 "line too long").
    assert (H1 : textproto.pending (Legacy.tp c1) = []).
    { unfold c1, Legacy.writeReply. cbn. unfold textproto.PrintfLine.
      rewrite Hopen. exact Hpend. }
    assert (H2 : textproto.closed (Legacy.tp c1) = false).
    { unfold c1, Legacy.writeReply. cbn. unfold textproto.PrintfLine.
      rewrite Hopen. reflexivity. }
    assert (H3 : textproto.sent (Legacy.tp c1)
                 = (textproto.sent (Legacy.tp c) ++ ["500 line too long"])%list).
    { unfold c1, Legacy.writeReply. cbn. unfold textproto.PrintfLine.
      rewrite Hopen. reflexivity. }
    destruct (IH c1 H1 H2) as (Hserve & c' & Hafter & Hsent).
    split; [exact Hserve|]. exists c'. split; [exact Hafter|].
    rewrite Hsent, H3, <- app_assoc. reflexivity.
Qed.

(** What the handlers of the earlier revision do to the recipient list:
    MAIL and DATA keep it, and RCPT keeps it or appends one address, which
    [VerifyAddress] has then accepted. *)
Lemma legacy_doMAIL_rcptTo (c : Legacy.connection) :
  Legacy.rcptTo (Legacy.doMAIL c) = Legacy.rcptTo c.
Proof.
  destruct c. unfold Legacy.doMAIL, Legacy.parsePath, Legacy.reply, Legacy.writeReply.
  branches; reflexivity.
Qed.

Lemma legacy_doDATA_rcptTo (c c' : Legacy.connection) :
  Legacy.doDATA c = Legacy.Returns c' ->
  Legacy.rcptTo c' = Legacy.rcptTo c /\ Legacy.mailFrom c' = Legacy.mailFrom c.
Proof.
  destruct c.
  unfold Legacy.doDATA, Legacy.getReceivedInfo, Legacy.reply, Legacy.writeReply,
    textproto.ReadDotBytes.
  intros H. revert H.
  branches; intros H; try discriminate; injection H as <-; split; reflexivity.
Qed.

Lemma legacy_doRCPT_rcptTo (c c' : Legacy.connection) :
  Legacy.doRCPT c = Legacy.Returns c' ->
  Legacy.rcptTo c' = Legacy.rcptTo c
  \/ exists a, Legacy.VerifyAddress a = ReplyOK
               /\ Legacy.rcptTo c' = (Legacy.rcptTo c ++ [a])%list.
Proof.
  destruct c.
  unfold Legacy.doRCPT, Legacy.parsePath, Legacy.reply, Legacy.writeReply.
  intros H. revert H.
  branches; intros H; try discriminate; injection H as <-;
    first [ left; reflexivity
          | right; eexists; split; [|reflexivity];
            match goal with
            | E : negb (ReplyLine_eqb _ ReplyOK) = false |- _ =>
                apply negb_false_iff, ReplyLine_eqb_eq in E; exact E
            end ].
Qed.

Lemma legacy_writeReply_rcptTo (c : Legacy.connection) (code : Z) (msg : string) :
  Legacy.rcptTo (Legacy.writeReply c code msg) = Legacy.rcptTo c.
Proof. unfold Legacy.writeReply. destruct (0 <? strings.len msg); reflexivity. Qed.

Lemma legacy_doEHLO_rcptTo (c : Legacy.connection) : Legacy.rcptTo (Legacy.doEHLO c) = [].
Proof.
  unfold Legacy.doEHLO, Legacy.reply.
  destruct (fmt.Sscanf 2 _) as [|y1 [|y2 [|y3 ys]]];
    rewrite ?legacy_writeReply_rcptTo; try reflexivity.
  destruct (String.eqb y1 "HELO"); cbn [Legacy.rcptTo Legacy.set_state];
    rewrite ?legacy_writeReply_rcptTo; [reflexivity|].
  unfold Legacy.PrintfLine. destruct Legacy.TLSConfig; reflexivity.
Qed.

Lemma legacy_doRSET_rcptTo (c : Legacy.connection) : Legacy.rcptTo (Legacy.doRSET c) = [].
Proof. unfold Legacy.doRSET, Legacy.reply. rewrite legacy_writeReply_rcptTo. reflexivity. Qed.

(** X20.  In the earlier revision a delivered message does not end the
    transaction's buffers: DATA and the MAIL of the next transaction keep
    the recipient list, so a recipient accepted after them is appended to
    the recipients of the message before. *)
Theorem legacy_recipients_carry_over (c c1 c3 : Legacy.connection) (l2 l3 : string) :
  Legacy.doDATA c = Legacy.Returns c1 ->
  Legacy.doRCPT (Legacy.set_line (Legacy.doMAIL (Legacy.set_line c1 l2)) l3)
  = Legacy.Returns c3 ->
  exists more, Legacy.rcptTo c3 = (Legacy.rcptTo c ++ more)%list.
Proof.
  intros Hdata Hrcpt.
  destruct (legacy_doDATA_rcptTo c c1 Hdata) as (Hkeep & _).
  destruct (legacy_doRCPT_rcptTo _ _ Hrcpt) as [E | (a & _ & E)];
    rewrite E; cbn [Legacy.rcptTo Legacy.set_line];
    rewrite legacy_doMAIL_rcptTo; cbn [Legacy.rcptTo Legacy.set_line]; rewrite Hkeep.
  - exists []. rewrite app_nil_r. reflexivity.
  - exists [a]. reflexivity.
Qed.

(** X21.  In the earlier revision every address on the recipient list was
    accepted by [VerifyAddress], in every session. *)
Theorem legacy_recipients_verified (remote local : string) (lines : list string)
    (now : Instant) (n : nat) (c : Legacy.connection) :
  Legacy.after n
    (Legacy.writeReply (Legacy.newConnection remote lines now) 220
       (Legacy.Name ++ " ESMTP [" ++ local ++ "] (mailpopbox)")) = Some c ->
  Forall (fun a => Legacy.VerifyAddress a = ReplyOK) (Legacy.rcptTo c).
Proof.
  set (P := fun x : Legacy.connection =>
              Forall (fun a => Legacy.VerifyAddress a = ReplyOK) (Legacy.rcptTo x)).
  assert (Hstep : forall x x', P x -> Legacy.serveLine x = Legacy.Continue x' -> P x').
  { intros x x' HP Hturn. unfold Legacy.serveLine in Hturn.
    destruct (textproto.ReadLine (Legacy.tp x)) as [[l|] t].
    2: { injection Hturn as <-. unfold P. rewrite legacy_writeReply_rcptTo. exact HP. }
    cbv zeta in Hturn.
    set (x0 := Legacy.set_line (Legacy.set_tp x t) l) in *.
    assert (HP0 : P x0) by exact HP.
    destruct (fmt.Sscanf 1 (Legacy.line x0)) as [|cmd [|cmd2 more]].
    1, 3: injection Hturn as <-; unfold P, Legacy.reply;
      rewrite legacy_writeReply_rcptTo; exact HP0.
    repeat match type of Hturn with
           | (if ?b then _ else _) = _ => destruct b
           end.
    all: unfold Legacy.handled in Hturn.
    all: try (injection Hturn as <-; unfold P, Legacy.reply;
              cbn [Legacy.rcptTo Legacy.set_tp];
              rewrite ?legacy_writeReply_rcptTo, ?legacy_doEHLO_rcptTo,
                ?legacy_doRSET_rcptTo, ?legacy_doMAIL_rcptTo;
              first [exact HP0 | constructor]).
    - destruct (Legacy.doRCPT x0) as [x1|x1] eqn:Hr; [|discriminate].
      injection Hturn as <-.
      destruct (legacy_doRCPT_rcptTo x0 x1 Hr) as [E | (a & Ha & E)];
        unfold P; rewrite E; [exact HP0|].
      apply Forall_app. split; [exact HP0|]. constructor; [exact Ha|constructor].
    - destruct (Legacy.doDATA x0) as [x1|x1] eqn:Hd; [|discriminate].
      injection Hturn as <-.
      destruct (legacy_doDATA_rcptTo x0 x1 Hd) as (E & _). unfold P. rewrite E. exact HP0. }
  assert (Hafter : forall k x0 x, P x0 -> Legacy.after k x0 = Some x -> P x).
  { induction k as [|k IH]; intros x0 x HP0 Hrun; cbn [Legacy.after] in Hrun.
    - injection Hrun as <-. exact HP0.
    - destruct (Legacy.serveLine x0) as [x1|x1] eqn:Hturn; [|discriminate].
      apply (IH x1 x); [|exact Hrun]. apply (Hstep x0 x1 HP0 Hturn). }
  intros Hrun. refine (Hafter n _ c _ Hrun).
  unfold P. rewrite legacy_writeReply_rcptTo. constructor.
Qed.

End LegacySession.

(** ** Sessions *)

Import Fixture.

(** An authenticated user of [example.com] sending from her own address:
    the MAIL handler classifies the transaction as Outbound. *)
Lemma doMAIL_classifies_witness :
  let c := reading (session (login ++ ["MAIL FROM:<alice@example.com>"]) [Some tls13] 4) in
  let from := mail.mkAddress "" "alice@example.com" in
  conn_state c = stateInitial
  /\ parsePath c "MAIL FROM:" = ("<alice@example.com>", ReplyOK)
  /\ ParseAddress "<alice@example.com>" = Some from
  /\ DomainForAddress from <> ""
  /\ VerifyAddress from = ReplyOK
  /\ (authenticated c /\ DomainForAddress from = DomainForAddressString (authc c))
  /\ conn_delivery (doMAIL c) = deliverOutbound
  /\ conn_state (doMAIL c) = stateMail
  /\ tp (doMAIL c) = tp (reply c ReplyOK).
Proof.
  intros c from.
  assert (H1 : conn_state c = stateInitial) by (vm_compute; reflexivity).
  assert (H2 : parsePath c "MAIL FROM:" = ("<alice@example.com>", ReplyOK))
    by (vm_compute; reflexivity).
  assert (H3 : ParseAddress "<alice@example.com>" = Some from) by (vm_compute; reflexivity).
  assert (H4 : DomainForAddress from <> "") by (vm_compute; discriminate).
  assert (H5 : VerifyAddress from = ReplyOK) by (vm_compute; reflexivity).
  assert (H6 : authenticated c /\ DomainForAddress from = DomainForAddressString (authc c)).
  { split; [vm_compute; discriminate | vm_compute; reflexivity]. }
  repeat (split; [assumption|]).
  exact (proj1 (proj1 (doMAIL_classifies c _ from H1 H2 H3 H4) H5) H6).
Defined.

(** An Inbound transaction and a recipient the server does not know: the
    RCPT handler answers with the server's reply and keeps the list. *)
Lemma doRCPT_verifies_inbound_only_witness :
  let c :=
    reading (session ["EHLO client.example"; "MAIL FROM:<x@remote.org>";
                      "RCPT TO:<nobody@example.com>"] [] 2) in
  let address := mail.mkAddress "" "nobody@example.com" in
  (conn_state c = stateMail \/ conn_state c = stateRecipient)
  /\ parsePath c "RCPT TO:" = ("<nobody@example.com>", ReplyOK)
  /\ ParseAddress "<nobody@example.com>" = Some address
  /\ conn_delivery c = deliverInbound
  /\ VerifyAddress address <> ReplyOK
  /\ rcptTo (doRCPT c) = rcptTo c
  /\ conn_state (doRCPT c) = conn_state c
  /\ tp (doRCPT c) = tp (reply c (VerifyAddress address)).
Proof.
  intros c address.
  assert (H1 : conn_state c = stateMail \/ conn_state c = stateRecipient)
    by (left; vm_compute; reflexivity).
  assert (H2 : parsePath c "RCPT TO:" = ("<nobody@example.com>", ReplyOK))
    by (vm_compute; reflexivity).
  assert (H3 : ParseAddress "<nobody@example.com>" = Some address)
    by (vm_compute; reflexivity).
  assert (H4 : conn_delivery c = deliverInbound) by (vm_compute; reflexivity).
  assert (H5 : VerifyAddress address <> ReplyOK) by (vm_compute; discriminate).
  repeat (split; [assumption|]).
  exact (proj1 (doRCPT_verifies_inbound_only c _ address H1 H2 H3) H4 H5).
Defined.

(** C2 as it is worded does not hold: there is a reachable session in
    which a recipient that [VerifyAddress] does not accept is on the
    recipient list (an authenticated user relaying to an address elsewhere). *)
Lemma unknown_recipient_accepted_for_relay :
  ~ (forall (lines : list string) (hs : list (option crypto_tls.ConnectionState))
       (n : nat) (c : connection) (a : mail.Address),
       session lines hs n = Some c -> In a (rcptTo c) -> VerifyAddress a = ReplyOK).
Proof.
  intros Hall.
  specialize (Hall (login ++ ["MAIL FROM:<alice@example.com>";
                              "RCPT TO:<stranger@elsewhere.org>"])%list
                   [Some tls13] 6%nat).
  remember (session _ _ _) as run eqn:Hrun.
  vm_compute in Hrun. subst run.
  specialize (Hall _ (mail.mkAddress "" "stranger@elsewhere.org") eq_refl (or_introl eq_refl)).
  vm_compute in Hall. discriminate.
Qed.

(** A message for the mailbox that refuses deliveries: the DATA handler
    passes [552 mailbox full] on and keeps the transaction. *)
Lemma doDATA_forwards_rejection_witness :
  let c := reading (session refused [] 3) in
  let from := mail.mkAddress "" "x@remote.org" in
  let data := "hello" ++ LF in
  let t := textproto.mkConn []
             (textproto.sent (tp c) ++ ["354 Start mail input; end with <CRLF>.<CRLF>"])
             false in
  conn_state c = stateRecipient
  /\ conn_delivery c = deliverInbound
  /\ mailFrom c = Some from
  /\ textproto.ReadDotBytes
       (tp (writeReply c 354 "Start mail input; end with <CRLF>.<CRLF>")) = (Some data, t)
  /\ DeliverMessage (assemble c from (clock c) data) = Some mailboxFull
  /\ exists c',
       doDATA c = Returns c'
       /\ tp c' = textproto.PrintfLine t "552 mailbox full"
       /\ conn_state c' = stateRecipient
       /\ mailFrom c' = mailFrom c
       /\ rcptTo c' = rcptTo c
       /\ conn_delivery c' = conn_delivery c.
Proof.
  intros c from data t.
  assert (H1 : conn_state c = stateRecipient) by (vm_compute; reflexivity).
  assert (H2 : conn_delivery c = deliverInbound) by (vm_compute; reflexivity).
  assert (H3 : mailFrom c = Some from) by (vm_compute; reflexivity).
  assert (H4 : textproto.ReadDotBytes
                 (tp (writeReply c 354 "Start mail input; end with <CRLF>.<CRLF>"))
               = (Some data, t)) by (vm_compute; reflexivity).
  assert (H5 : DeliverMessage (assemble c from (clock c) data) = Some mailboxFull)
    by (vm_compute; reflexivity).
  repeat (split; [assumption|]).
  exact (doDATA_forwards_rejection c from data t mailboxFull H1 H2 H3 H4 H5).
Defined.

(** The two-step form: [AUTH PLAIN ] with a trailing space, then the
    response on a line of its own. *)
Lemma doAUTH_accepts_both_forms_witness :
  let c :=
    reading (session ["EHLO client.example"; "STARTTLS"; "EHLO client.example";
                      "AUTH PLAIN "; alice] [Some tls13] 3) in
  conn_state c = stateInitial
  /\ tls c <> None
  /\ authc c = ""
  /\ doAUTH c
     = authenticate
         (set_tp c (textproto.mkConn [] (textproto.sent (tp c) ++ ["334  "]) false)) alice
  /\ authc (doAUTH c) = "alice@example.com".
Proof.
  intros c.
  assert (H1 : conn_state c = stateInitial) by (vm_compute; reflexivity).
  assert (H2 : tls c <> None) by (vm_compute; discriminate).
  assert (H3 : authc c = "") by (vm_compute; reflexivity).
  repeat (split; [assumption|]).
  split; [|vm_compute; reflexivity].
  apply (proj1 (proj2 (doAUTH_accepts_both_forms c H1 H2 H3)) "AUTH" alice []);
    vm_compute; reflexivity.
Defined.

(** C7 as it is worded does not hold: where AUTH is legal, the line
    [AUTH PLAIN] with nothing after the mechanism name is answered with the
    syntax-error reply; no prompt is sent and the line that follows is left
    for the loop to read as a command. *)
Lemma AUTH_PLAIN_bare_is_syntax_error :
  let c :=
    reading (session ["EHLO client.example"; "STARTTLS"; "EHLO client.example";
                      "AUTH PLAIN"; alice] [Some tls13] 3) in
  conn_state c = stateInitial /\ tls c = Some tls13 /\ authc c = ""
  /\ line c = "AUTH PLAIN"
  /\ textproto.sent (tp (doAUTH c)) = (textproto.sent (tp c) ++ ["501 syntax error"])%list
  /\ ~ In "334  " (textproto.sent (tp (doAUTH c)))
  /\ textproto.pending (tp (doAUTH c)) = [alice]
  /\ authc (doAUTH c) = "".
Proof.
  intros c. vm_compute.
  repeat split; try reflexivity.
  intros H. repeat (destruct H as [H|H]; [discriminate H|]). exact H.
Qed.

(** C3 fails on the code.  A session opened with HELO, without TLS: after
    the HELO turn [esmtp] is true, the trace header names the protocol as
    ESMTP, and the message handed to the server carries that header. *)
Theorem HELO_session_traced_as_ESMTP :
  option_map esmtp (session plain [] 1) = Some true
  /\ option_map withProtocol (session plain [] 1) = Some "ESMTP"
  /\ option_map tls (session plain [] 1) = Some None
  /\ option_map (fun c => map (fun h => match h with
                                       | Delivered env | Relayed env => Data env
                                       end) (handed c))
       (session plain [] 4)
     = Some ["Received: from client.example (192.0.2.7:4025)" ++ CRLF
             ++ "        by mx.example.com (mailpopbox) with ESMTP id m.0" ++ CRLF
             ++ "        for <mailbox@example.com>" ++ CRLF
             ++ "        (using PLAINTEXT);" ++ CRLF
             ++ "        T0" ++ CRLF
             ++ "Subject: hi" ++ LF ++ LF ++ "hello" ++ LF].
Proof. vm_compute. repeat split; reflexivity. Qed.

(** C4 fails on the code.  EHLO, STARTTLS, EHLO, STARTTLS with both
    handshakes going through: the second STARTTLS is answered [220] like
    the first, the handshake is run again, the state is New again and the
    TLS state is that of the second handshake. *)
Theorem STARTTLS_accepted_twice :
  exists c,
    session ["EHLO client.example"; "STARTTLS"; "EHLO client.example"; "STARTTLS"]
      [Some tls13; Some tls12] 4 = Some c
    /\ textproto.sent (tp c)
       = ["220 mx.example.com ESMTP [192.0.2.1:25] (mailpopbox)";
          "250-Hello client.example [192.0.2.7:4025]"; "250-STARTTLS"; "250 SIZE 40960000";
          "220 initiate TLS connection";
          "250-Hello client.example [192.0.2.7:4025]"; "250-AUTH PLAIN"; "250 SIZE 40960000";
          "220 initiate TLS connection"]
    /\ conn_state c = stateNew
    /\ tls c = Some tls12
    /\ handshakes (nc c) = [].
Proof. vm_compute. eexists. repeat split; reflexivity. Qed.

(** C5 fails on the code.  MAIL and RCPT, then an EHLO without a domain,
    then DATA: the EHLO has emptied the transaction and left the state at
    Recipient, so DATA passes its guard, reads the body, and builds the
    envelope with no recipient and a nil sender, which panics. *)
Theorem DATA_after_rejected_EHLO_panics :
  exists c c',
    session interrupted [] 4 = Some c
    /\ conn_state c = stateRecipient
    /\ rcptTo c = []
    /\ mailFrom c = None
    /\ serveLine c = Panic c'
    /\ textproto.sent (tp c')
       = (textproto.sent (tp c) ++ ["354 Start mail input; end with <CRLF>.<CRLF>"])%list
    /\ textproto.pending (tp c') = []
    /\ serve 5 (greeted interrupted []) = Some (Panic c').
Proof. do 2 eexists. runs. Qed.

(** The earlier revision does the same, and its trace header would index
    the empty recipient list were the sender not nil. *)
Lemma legacy_DATA_after_rejected_EHLO_panics :
  exists c c',
    legacySession interrupted 4 = Some c
    /\ Legacy.conn_state c = stateRecipient
    /\ Legacy.rcptTo c = []
    /\ Legacy.mailFrom c = None
    /\ Legacy.serveLine c = Legacy.Panic c'
    /\ forall from,
         Legacy.getReceivedInfo c
           (mkEnvelope "" "" from (Legacy.rcptTo c) 0%nat "" "") = None.
Proof. do 2 eexists. runs. intros from. reflexivity. Qed.

(** C8 fails on the code.  An EHLO without a domain in the middle of a
    transaction is answered with the syntax-error reply and the loop goes
    on, but the sender, the recipients and the classification are gone
    while the state is still Recipient. *)
Theorem rejected_EHLO_clears_transaction :
  exists c c',
    session interrupted [] 3 = Some c
    /\ serveLine c = Continue c'
    /\ textproto.sent (tp c') = (textproto.sent (tp c) ++ ["501 syntax error"])%list
    /\ (conn_state c, conn_state c') = (stateRecipient, stateRecipient)
    /\ (mailFrom c, mailFrom c') = (Some (mail.mkAddress "" "x@remote.org"), None)
    /\ (rcptTo c, rcptTo c') = ([mail.mkAddress "" "mailbox@example.com"], [])
    /\ (conn_delivery c, conn_delivery c') = (deliverInbound, deliverUnknown).
Proof. do 2 eexists. runs. Qed.

(** In [conn.go] a recipient that does not parse is answered with the
    syntax-error reply and nothing but the stored line changes. *)
Lemma doRCPT_unparsable_keeps_state :
  let c :=
    reading (session ["EHLO client.example"; "MAIL FROM:<x@remote.org>"; "RCPT TO:<nobody>"]
               [] 2) in
  doRCPT c = set_tp c (textproto.PrintfLine (tp c) "501 syntax error").
Proof. vm_compute. reflexivity. Qed.

(** In the earlier revision the same line is answered and then panics:
    the handler does not return after the reply and dereferences the nil
    address. *)
Lemma legacy_doRCPT_unparsable_panics :
  exists c,
    Legacy.serve 4 (legacyGreeted ["EHLO client.example"; "MAIL FROM:<x@remote.org>";
                                   "RCPT TO:<nobody>"; "NOOP"])
    = Some (Legacy.Panic c)
    /\ last (textproto.sent (Legacy.tp c)) "" = "501 syntax error"
    /\ textproto.pending (Legacy.tp c) = ["NOOP"].
Proof. vm_compute. eexists. repeat split; reflexivity. Qed.

(** Once the output is closed the loop of the earlier revision spins:
    every read fails and is answered by a write that fails. *)
Lemma legacy_serve_closed (fuel : nat) (c : Legacy.connection) :
  textproto.closed (Legacy.tp c) = true -> Legacy.serve fuel c = None.
Proof.
  revert c. induction fuel as [|fuel IH]; intros c Hclosed; [reflexivity|].
  cbn [Legacy.serve]. unfold Legacy.serveLine, textproto.ReadLine.
  rewrite Hclosed. apply IH.
  unfold Legacy.writeReply. cbn.
  unfold textproto.PrintfLine. rewrite Hclosed. exact Hclosed.
Qed.

(** C9 fails on the earlier revision.  A client that sends QUIT: the
    reply [221 Goodbye] is sent and the output is closed, but the loop
    does not end, however many turns it is given. *)
Theorem legacy_QUIT_keeps_looping :
  (exists c,
     legacySession ["QUIT"; "NOOP"] 1 = Some c
     /\ textproto.sent (Legacy.tp c)
        = ["220 mx.example.com ESMTP [192.0.2.1:25] (mailpopbox)"; "221 Goodbye"]
     /\ textproto.closed (Legacy.tp c) = true)
  /\ forall fuel : nat,
       Legacy.AcceptConnection fuel "192.0.2.7:4025" "192.0.2.1:25" ["QUIT"; "NOOP"] 0%nat
       = None.
Proof.
  split.
  - vm_compute. eexists. repeat split; reflexivity.
  - intros [|fuel]; [reflexivity|].
    unfold Legacy.AcceptConnection. cbn [Legacy.serve].
    remember (Legacy.serveLine _) as turn1 eqn:Hturn. vm_compute in Hturn. subst turn1.
    apply legacy_serve_closed. reflexivity.
Qed.

(** The same client with [conn.go]: the loop returns after one turn. *)
Lemma QUIT_ends_session (fuel : nat) :
  exists c,
    AcceptConnection (S fuel) "192.0.2.7:4025" "192.0.2.1:25" ["QUIT"; "NOOP"] [] 0%nat
    = Some (Return c)
    /\ textproto.sent (tp c)
       = ["220 mx.example.com ESMTP [192.0.2.1:25] (mailpopbox)"; "221 Goodbye"]
    /\ textproto.closed (tp c) = true
    /\ textproto.pending (tp c) = ["NOOP"].
Proof.
  eexists. split.
  - unfold AcceptConnection.
    apply (serve_QUIT_returns _ "QUIT" "QUIT" ["NOOP"]); reflexivity.
  - vm_compute. repeat split; reflexivity.
Qed.

(** C10 fails on the code.  A relayed message with a [From:] header and
    no [Subject:] header whose first header carries a send-as tag: the tag
    is cut out of that header, the [From:] address is replaced and the
    envelope sender becomes the send-as address.  Likewise for a message
    with a tagged [Subject:] header and no [From:] header. *)
Theorem sendAs_rewrites_without_Subject :
  (exists c env,
     session untitled [Some tls13] 7 = Some c
     /\ handed c = [Relayed env]
     /\ MailFrom env = mail.mkAddress "" "bob@example.com"
     /\ Data env
        = "Received: from client.example (192.0.2.7:4025)" ++ CRLF
          ++ "        by mx.example.com (mailpopbox) with ESMTPS id m.0" ++ CRLF
          ++ "        for <stranger@elsewhere.org>" ++ CRLF
          ++ "        (using TLSv1.3 cipher=TLS_AES_128_GCM_SHA256 name=mx.example.com);"
          ++ CRLF ++ "        T0" ++ CRLF
          ++ "X-Note: " ++ LF ++ "From: Alice <bob@example.com>" ++ LF
          ++ LF ++ LF ++ "hello" ++ LF)
  /\
  (let c := reading (session untitled [Some tls13] 6) in
   let env :=
     mkEnvelope "192.0.2.7:4025" "client.example" (mail.mkAddress "" "alice@example.com")
       [] 0%nat "m.0" ("Subject: hi [send-as:bob]" ++ LF ++ "To: you" ++ LF ++ LF ++ "hello") in
   conn_delivery c = deliverOutbound
   /\ MailFrom (handleSendAs c env) = mail.mkAddress "" "bob@example.com"
   /\ Data (handleSendAs c env) = "Subject: hi " ++ LF ++ "To: you" ++ LF ++ LF ++ "hello").
Proof.
  split.
  - vm_compute. do 2 eexists. repeat split; reflexivity.
  - vm_compute. repeat split; reflexivity.
Qed.

(** ** The properties above at work in sessions *)

(** The fixture's sessions are sessions of [AcceptConnection]. *)
Lemma session_reachable (lines : list string) (hs : list (option crypto_tls.ConnectionState))
    (n : nat) (c : connection) :
  session lines hs n = Some c -> reachable c.
Proof.
  intros H. exists "192.0.2.7:4025", "192.0.2.1:25", lines, hs, 0%nat, n. exact H.
Qed.

(** A command out of sequence on a fresh connection. *)
Lemma out_of_sequence_only_replies_witness :
  let c := reading (session ["MAIL FROM:<x@remote.org>"] [] 0) in
  conn_state c <> stateInitial
  /\ doMAIL c = set_tp c (textproto.PrintfLine (tp c) "503 bad sequence").
Proof.
  intros c.
  assert (H : conn_state c <> stateInitial) by (vm_compute; discriminate).
  split; [exact H|].
  exact (proj2 (proj2 (proj1 (out_of_sequence_only_replies c) H))).
Defined.

(** After the login, RSET and a new EHLO keep the identity and TLS. *)
Lemma session_fields_persist_witness :
  let lines := (login ++ ["RSET"; "EHLO again.example"])%list in
  let c := running (session lines [Some tls13] 4) in
  let c' := running (session lines [Some tls13] 6) in
  after 2 c = Some c'
  /\ tls c <> None /\ authc c <> "" /\ esmtp c = true
  /\ tls c' <> None /\ authc c' = authc c /\ esmtp c' = true.
Proof.
  intros lines c c'.
  assert (H : after 2 c = Some c') by (vm_compute; reflexivity).
  assert (H1 : tls c <> None) by (vm_compute; discriminate).
  assert (H2 : authc c <> "") by (vm_compute; discriminate).
  assert (H3 : esmtp c = true) by (vm_compute; reflexivity).
  destruct (session_fields_persist 2 c c' H) as (K1 & K2 & K3).
  conjs; [exact H | exact H1 | exact H2 | exact H3 | exact (K1 H1) | exact (K2 H2)
         | exact (K3 H3)].
Defined.

Lemma authenticated_implies_tls_witness :
  let c := running (session login [Some tls13] 4) in
  reachable c /\ authenticated c /\ tls c <> None.
Proof.
  intros c.
  assert (H1 : reachable c)
    by (apply (session_reachable login [Some tls13] 4); vm_compute; reflexivity).
  assert (H2 : authenticated c) by (vm_compute; discriminate).
  conjs; [exact H1 | exact H2 | exact (authenticated_implies_tls c H1 H2)].
Defined.

Lemma reachable_transaction_wf_witness :
  let c := running (session interrupted [] 4) in
  reachable c /\ transaction_wf c.
Proof.
  intros c.
  assert (H1 : reachable c)
    by (apply (session_reachable interrupted [] 4); vm_compute; reflexivity).
  split; [exact H1 | exact (reachable_transaction_wf c H1)].
Defined.

Lemma handed_envelopes_name_recipients_witness :
  let c := running (session refused [] 4) in
  let h := hd (Relayed (mkEnvelope "" "" (mail.mkAddress "" "") [] 0%nat "" "")) (handed c) in
  reachable c /\ In h (handed c) /\ RcptTo (envelopeOf h) <> [].
Proof.
  intros c h.
  assert (H1 : reachable c)
    by (apply (session_reachable refused [] 4); vm_compute; reflexivity).
  assert (H2 : In h (handed c)) by (vm_compute; left; reflexivity).
  conjs; [exact H1 | exact H2 | exact (handed_envelopes_name_recipients c h H1 H2)].
Defined.

Lemma panic_only_without_sender_witness :
  let c := running (session interrupted [] 4) in
  let c' := match serveLine c with Panic x => x | _ => c end in
  reachable c /\ serveLine c = Panic c'
  /\ conn_state c = stateRecipient /\ mailFrom c = None
  /\ conn_delivery c = deliverUnknown /\ handed c' = handed c.
Proof.
  intros c c'.
  assert (H1 : reachable c)
    by (apply (session_reachable interrupted [] 4); vm_compute; reflexivity).
  assert (H2 : serveLine c = Panic c') by (vm_compute; reflexivity).
  split; [exact H1|]. split; [exact H2|].
  exact (panic_only_without_sender c c' H1 H2).
Defined.

Lemma parsePath_ignores_what_follows_witness :
  let c := set_line (greeted [] []) "MAIL FROM:<Someone@Remote.org>" in
  strings.len "MAIL FROM:" <= strings.len (line c)
  /\ strings.Index (strings.sliceFrom (line c) (strings.len "MAIL FROM:")) ">" <> -1
  /\ parsePath (set_line c (line c ++ " SIZE=1024")) "MAIL FROM:"
     = parsePath c "MAIL FROM:"
  /\ parsePath c "MAIL FROM:" = ("<someone@remote.org>", ReplyOK).
Proof.
  intros c.
  assert (H1 : strings.len "MAIL FROM:" <= strings.len (line c))
    by (vm_compute; discriminate).
  assert (H2 : strings.Index (strings.sliceFrom (line c) (strings.len "MAIL FROM:")) ">"
               <> -1) by (vm_compute; discriminate).
  conjs; [exact H1 | exact H2 | | vm_compute; reflexivity].
  exact (parsePath_ignores_what_follows c "MAIL FROM:" " SIZE=1024" H1 H2).
Defined.

Lemma doEHLO_greets_witness :
  let c := reading (session ["ehlo client.example"] [] 0) in
  fmt.Sscanf 2 (line c) = ["ehlo"; "client.example"]
  /\ textproto.closed (tp c) = false
  /\ conn_state (doEHLO c) = stateInitial
  /\ ehlo (doEHLO c) = "client.example"
  /\ textproto.sent (tp (doEHLO c))
     = (textproto.sent (tp c)
        ++ ["250-Hello client.example [192.0.2.7:4025]"; "250-STARTTLS";
            "250 SIZE 40960000"])%list.
Proof.
  intros c.
  assert (H1 : fmt.Sscanf 2 (line c) = ["ehlo"; "client.example"])
    by (vm_compute; reflexivity).
  assert (H2 : textproto.closed (tp c) = false) by (vm_compute; reflexivity).
  destruct (doEHLO_greets c "ehlo" "client.example" H1 H2) as (K1 & K2 & _ & _ & _ & K6).
  conjs; [exact H1 | exact H2 | exact K1 | exact K2 | ].
  rewrite K6. vm_compute. reflexivity.
Defined.

Lemma doSTARTTLS_outcomes_witness :
  let c := reading (session ["EHLO client.example"; "STARTTLS"] [None] 1) in
  conn_state c = stateInitial
  /\ esmtp c = true /\ TLSConfig <> None
  /\ tp (doSTARTTLS c) = textproto.PrintfLine (tp c) "220 initiate TLS connection"
  /\ conn_state (doSTARTTLS c) = stateInitial
  /\ tls (doSTARTTLS c) = None.
Proof.
  intros c.
  assert (H1 : conn_state c = stateInitial) by (vm_compute; reflexivity).
  assert (H2 : esmtp c = true) by (vm_compute; reflexivity).
  assert (H3 : TLSConfig <> None) by (vm_compute; discriminate).
  destruct (proj2 (doSTARTTLS_outcomes c H1) H2 H3) as (K1 & _).
  conjs; [exact H1 | exact H2 | exact H3 | exact K1
         | vm_compute; reflexivity | vm_compute; reflexivity].
Defined.

Lemma RSET_opens_transaction_from_any_state_witness :
  let c := greeted [] [] in
  let l := "MAIL FROM:<x@remote.org>" in
  let from := mail.mkAddress "" "x@remote.org" in
  conn_state c = stateNew
  /\ parsePath (set_line (doRSET c) l) "MAIL FROM:" = ("<x@remote.org>", ReplyOK)
  /\ ParseAddress "<x@remote.org>" = Some from
  /\ VerifyAddress from <> ReplyOK
  /\ conn_state (doMAIL (set_line (doRSET c) l)) = stateMail
  /\ esmtp (doMAIL (set_line (doRSET c) l)) = false.
Proof.
  intros c l from.
  assert (H1 : parsePath (set_line (doRSET c) l) "MAIL FROM:" = ("<x@remote.org>", ReplyOK))
    by (vm_compute; reflexivity).
  assert (H2 : ParseAddress "<x@remote.org>" = Some from) by (vm_compute; reflexivity).
  assert (H3 : VerifyAddress from <> ReplyOK) by (vm_compute; discriminate).
  destruct (RSET_opens_transaction_from_any_state c l _ from H1 H2 H3)
    as (K1 & _ & _ & _ & K5 & _).
  conjs; [vm_compute; reflexivity | exact H1 | exact H2 | exact H3 | exact K1 | ].
  rewrite K5. vm_compute. reflexivity.
Defined.

Lemma doDATA_accepted_witness :
  let c := reading (session plain [] 3) in
  let from := mail.mkAddress "" "x@remote.org" in
  let data := "Subject: hi" ++ LF ++ LF ++ "hello" ++ LF in
  let t := textproto.mkConn []
             (textproto.sent (tp c) ++ ["354 Start mail input; end with <CRLF>.<CRLF>"])
             false in
  let env := assemble c from (clock c) data in
  conn_state c = stateRecipient
  /\ mailFrom c = Some from
  /\ textproto.ReadDotBytes
       (tp (writeReply c 354 "Start mail input; end with <CRLF>.<CRLF>")) = (Some data, t)
  /\ (conn_delivery c = deliverInbound /\ DeliverMessage env = None)
  /\ exists c',
       doDATA c = Returns c'
       /\ tp c' = textproto.PrintfLine t "250 OK"
       /\ conn_state c' = stateInitial
       /\ rcptTo c' = []
       /\ handed c' = [Delivered env].
Proof.
  intros c from data t env.
  assert (H1 : conn_state c = stateRecipient) by (vm_compute; reflexivity).
  assert (H2 : mailFrom c = Some from) by (vm_compute; reflexivity).
  assert (H3 : textproto.ReadDotBytes
                 (tp (writeReply c 354 "Start mail input; end with <CRLF>.<CRLF>"))
               = (Some data, t)) by (vm_compute; reflexivity).
  assert (H4 : conn_delivery c = deliverInbound /\ DeliverMessage env = None)
    by (split; vm_compute; reflexivity).
  repeat (split; [assumption|]).
  destruct (doDATA_accepted c from data t H1 H2 H3 (or_intror H4))
    as (c' & K1 & K2 & K3 & _ & K5 & _ & K7 & _).
  exists c'. conjs; [exact K1 | exact K2 | exact K3 | exact K5 | ].
  rewrite K7. destruct H4 as [-> _]. reflexivity.
Defined.

Lemma doDATA_read_failure_witness :
  let c := reading (session unfinished [] 3) in
  let t := textproto.mkConn []
             (textproto.sent (tp c) ++ ["354 Start mail input; end with <CRLF>.<CRLF>"])
             false in
  conn_state c = stateRecipient
  /\ textproto.ReadDotBytes
       (tp (writeReply c 354 "Start mail input; end with <CRLF>.<CRLF>")) = (None, t)
  /\ doDATA c = Returns (set_tp c (textproto.PrintfLine t "552 transaction failed")).
Proof.
  intros c t.
  assert (H1 : conn_state c = stateRecipient) by (vm_compute; reflexivity).
  assert (H2 : textproto.ReadDotBytes
                 (tp (writeReply c 354 "Start mail input; end with <CRLF>.<CRLF>"))
               = (None, t)) by (vm_compute; reflexivity).
  conjs; [exact H1 | exact H2 | exact (doDATA_read_failure c t H1 H2)].
Defined.

Lemma legacy_read_error_never_ends_witness :
  let c := legacyRunning (legacySession ["NOOP"] 1) in
  textproto.pending (Legacy.tp c) = []
  /\ textproto.closed (Legacy.tp c) = false
  /\ Legacy.serve 3 c = None
  /\ exists c',
       Legacy.after 3 c = Some c'
       /\ textproto.sent (Legacy.tp c')
          = (textproto.sent (Legacy.tp c)
             ++ ["500 line too long"; "500 line too long"; "500 line too long"])%list.
Proof.
  intros c.
  assert (H1 : textproto.pending (Legacy.tp c) = []) by (vm_compute; reflexivity).
  assert (H2 : textproto.closed (Legacy.tp c) = false) by (vm_compute; reflexivity).
  repeat (split; [assumption|]).
  exact (legacy_read_error_never_ends 3 c H1 H2).
Defined.

Lemma legacy_recipients_carry_over_witness :
  let c := legacyReading (legacySession twice 3) in
  let c1 := legacyLeft (Legacy.doDATA c) in
  let l2 := "MAIL FROM:<y@remote.org>" in
  let l3 := "RCPT TO:<alice@example.com>" in
  let c3 := legacyLeft (Legacy.doRCPT (Legacy.set_line (Legacy.doMAIL (Legacy.set_line c1 l2)) l3)) in
  Legacy.doDATA c = Legacy.Returns c1
  /\ Legacy.doRCPT (Legacy.set_line (Legacy.doMAIL (Legacy.set_line c1 l2)) l3)
     = Legacy.Returns c3
  /\ Legacy.rcptTo c = [mail.mkAddress "" "mailbox@example.com"]
  /\ Legacy.rcptTo c3
     = [mail.mkAddress "" "mailbox@example.com"; mail.mkAddress "" "alice@example.com"]
  /\ exists more, Legacy.rcptTo c3 = (Legacy.rcptTo c ++ more)%list.
Proof.
  intros c c1 l2 l3 c3.
  assert (H1 : Legacy.doDATA c = Legacy.Returns c1) by (vm_compute; reflexivity).
  assert (H2 : Legacy.doRCPT (Legacy.set_line (Legacy.doMAIL (Legacy.set_line c1 l2)) l3)
               = Legacy.Returns c3) by (vm_compute; reflexivity).
  conjs; [exact H1 | exact H2 | vm_compute; reflexivity | vm_compute; reflexivity | ].
  exact (legacy_recipients_carry_over c c1 c3 l2 l3 H1 H2).
Defined.

Lemma legacy_recipients_verified_witness :
  let c := legacyRunning (legacySession twice 3) in
  Legacy.after 3
    (Legacy.writeReply (Legacy.newConnection "192.0.2.7:4025" twice 0%nat) 220
       (Legacy.Name ++ " ESMTP [" ++ "192.0.2.1:25" ++ "] (mailpopbox)")) = Some c
  /\ Legacy.rcptTo c = [mail.mkAddress "" "mailbox@example.com"]
  /\ Forall (fun a => Legacy.VerifyAddress a = ReplyOK) (Legacy.rcptTo c).
Proof.
  intros c.
  assert (H1 : Legacy.after 3
                 (Legacy.writeReply (Legacy.newConnection "192.0.2.7:4025" twice 0%nat) 220
                    (Legacy.Name ++ " ESMTP [" ++ "192.0.2.1:25" ++ "] (mailpopbox)"))
               = Some c) by (vm_compute; reflexivity).
  conjs; [exact H1 | vm_compute; reflexivity | ].
  exact (legacy_recipients_verified "192.0.2.7:4025" "192.0.2.1:25" twice 0%nat 3 c H1).
Defined.

Lemma doRCPT_unparsable_witness :
  let c :=
    reading (session ["EHLO client.example"; "MAIL FROM:<x@remote.org>"; "RCPT TO:<nobody>"]
               [] 2) in
  (conn_state c = stateMail \/ conn_state c = stateRecipient)
  /\ parsePath c "RCPT TO:" = ("<nobody>", ReplyOK)
  /\ ParseAddress "<nobody>" = None
  /\ doRCPT c = set_tp c (textproto.PrintfLine (tp c) (wire ReplyBadSyntax)).
Proof.
  intros c.
  assert (H1 : conn_state c = stateMail \/ conn_state c = stateRecipient)
    by (left; vm_compute; reflexivity).
  assert (H2 : parsePath c "RCPT TO:" = ("<nobody>", ReplyOK)) by (vm_compute; reflexivity).
  assert (H3 : ParseAddress "<nobody>" = None) by (vm_compute; reflexivity).
  conjs; [exact H1 | exact H2 | exact H3 | exact (doRCPT_unparsable c _ H1 H2 H3)].
Defined.
